(** * AquaServer: the time-based colour engines of [server.js]

    A shallow embedding of the two colour computations of the lighting
    backend, the daylight curve behind [GET /api/auto-light] and the timer
    fade scan behind [GET /api/light-timer-color], together with the small
    helpers they call ([hexToRgb], [timeToMinutes], [minutesSinceMidnight]).

    Number model.  JavaScript numbers that are integers in the source
    (minutes, colour channels, the 24-bit colour) are [Z]; the remainder
    operator [%] is [Z.rem] (sign of the dividend, as in JavaScript); the
    bit operators work on the 32-bit two's complement image written out in
    [ToInt32].  Numbers that can be fractional (the time of day in hours,
    the fade progress, the brightness, the scaled channels) are rationals
    [Q] with exact arithmetic, and [Math.round] is "floor of x + 1/2",
    which is JavaScript's rounding with ties going up.  A quotient whose
    divisor is zero is not a rational: it makes the answer [NonFinite].
    [Math.PI] is the rational that the binary64 constant denotes, and
    [Math.sin], which the language leaves to the host, is a parameter of
    the daylight section.

    Exact arithmetic is an idealisation of the binary64 arithmetic the
    server runs on.  Module [Binary64] repeats the arithmetic on binary64
    itself; the last part of the file evaluates both on the inputs the
    properties name, where they agree, and records an input where a tie
    makes them differ by one. *)

From Stdlib Require Import ZArith QArith Qround Lia Lqa Bool List Ascii String.
From Stdlib Require Import Uint63.
From Corelib Require Import PrimFloat FloatOps SpecFloat.
Import ListNotations.

Local Open Scope Z_scope.

(** ** Responses and stored values *)

(** The colour object [{r, g, b}] sent by both handlers. *)
Record rgb : Type := mkRgb { r : Z; g : Z; b : Z }.

(** The colour object a handler builds: three integer channels, or, after
    a division by zero, channels that are [NaN] or infinite. *)
Inductive answer : Type :=
| Colour (c : rgb)
| NonFinite.

(** What a handler sends: [res.status(c).json(..)], [res.json({r,g,b})]
    with integer channels, the same with channels that are not finite
    (serialised as [null]), or [res.json({color: null})]. *)
Inductive response : Type :=
| Status (code : Z) (message : string)
| JsonRgb (c : rgb)
| JsonNonFinite
| JsonColorNull.

Definition respond (a : answer) : response :=
  match a with
  | Colour c => JsonRgb c
  | NonFinite => JsonNonFinite
  end.

(** A property of a stored JSON object: missing (reads as [undefined]),
    [null], or a value. *)
Inductive field (A : Type) : Type :=
| Missing
| IsNull
| Val (a : A).
Arguments Missing {A}.
Arguments IsNull {A}.
Arguments Val {A} a.

(** ** Arithmetic helpers *)

(** [Math.round]: the nearest integer, ties towards positive infinity. *)
Definition Math_round (x : Q) : Z := Qfloor (x + (1 # 2)).

(** The comparison [x < y] on numbers. *)
Definition Qlt_bool (x y : Q) : bool :=
  (Qnum x * QDen y <? Qnum y * QDen x)%Z.

(** [Math.PI], the binary64 number 0x1.921fb54442d18p+1, as a rational. *)
Definition Math_PI : Q := 884279719003555 # 281474976710656.

(** [x || 255] on a stored number: [undefined], [null] and [0] are falsy. *)
Definition orDefault255 (x : field Q) : Q :=
  match x with
  | Val q => if Qeq_bool q 0 then 255%Q else q
  | _ => 255%Q
  end.

(** The abstract operation ToInt32 that [>>] and [&] apply to their left
    operand. *)
Definition ToInt32 (x : Z) : Z :=
  let m := x mod 4294967296 in
  if m <? 2147483648 then m else m - 4294967296.

(** ** The daylight curve: [GET /api/auto-light] *)

Definition sunriseColor : rgb := mkRgb 255 150 50.
Definition noonColor : rgb := mkRgb 255 255 255.
Definition sunsetColor : rgb := mkRgb 255 100 100.

(** [const time = hour + minute / 60]. *)
Definition fractionalHour (hour minute : Z) : Q :=
  (inject_Z hour + inject_Z minute / 60)%Q.

Section Daylight.

(** The host's [Math.sin]. *)
Variable Math_sin : Q -> Q.

(** [intensity], from [angleDeg] and [angleRad]. *)
Definition intensity (time : Q) : Q :=
  let angleDeg := ((time - 6) / 12 * 180)%Q in
  let angleRad := (angleDeg * Math_PI / 180)%Q in
  Math_sin angleRad.

(** The [time < 12] branch: the three channels before rounding. *)
Definition sunriseToNoon (i : Q) : Q * Q * Q :=
  ((inject_Z (r sunriseColor) + i * inject_Z (r noonColor - r sunriseColor))%Q,
   (inject_Z (g sunriseColor) + i * inject_Z (g noonColor - g sunriseColor))%Q,
   (inject_Z (b sunriseColor) + i * inject_Z (b noonColor - b sunriseColor))%Q).

(** The [else] branch. *)
Definition noonToSunset (i : Q) : Q * Q * Q :=
  ((inject_Z (r noonColor) - (1 - i) * inject_Z (r noonColor - r sunsetColor))%Q,
   (inject_Z (g noonColor) - (1 - i) * inject_Z (g noonColor - g sunsetColor))%Q,
   (inject_Z (b noonColor) - (1 - i) * inject_Z (b noonColor - b sunsetColor))%Q).

(** [let r, g, b] after the [if (time < 12)]. *)
Definition daylightChannels (time : Q) : Q * Q * Q :=
  if Qlt_bool time 12 then sunriseToNoon (intensity time)
  else noonToSunset (intensity time).

(** The body of the current handler from [const time] on: the night
    branch scales the fixed colour, the day branch scales the
    interpolated one. *)
Definition computeDaylightColor (time brightness : Q) : rgb :=
  if Qlt_bool time 6 || Qle_bool 18 time then
    mkRgb (Math_round (20 * brightness / 255))
          (Math_round (20 * brightness / 255))
          (Math_round (60 * brightness / 255))
  else
    let '(cr, cg, cb) := daylightChannels time in
    mkRgb (Math_round (cr * brightness / 255))
          (Math_round (cg * brightness / 255))
          (Math_round (cb * brightness / 255)).

(** The earlier version of the handler: it reads no user and no
    brightness; the night colour is a literal and the day colour is only
    rounded. *)
Definition computeDaylightColorLegacy (time : Q) : rgb :=
  if Qlt_bool time 6 || Qle_bool 18 time then mkRgb 20 20 60
  else
    let '(cr, cg, cb) := daylightChannels time in
    mkRgb (Math_round cr) (Math_round cg) (Math_round cb).

End Daylight.

(** ** Parsing helpers *)

(** Error monad for inputs outside the modelled fragment of [Number] and
    [parseInt] (signs, white space, exponents, numerals too long to be
    exact in binary64, and the strings JavaScript turns into [NaN]). *)
Definition bind {A B : Type} (x : option A) (f : A -> option B) : option B :=
  match x with
  | Some a => f a
  | None => None
  end.

Notation "'let*' x ':=' c 'in' k" := (bind c (fun x => k))
  (at level 10, x name, c at level 100, k at level 200).

(** [s.split(sep)] for a one-character separator. *)
Fixpoint split (sep : ascii) (s : string) : list string :=
  match s with
  | EmptyString => [EmptyString]
  | String c rest =>
      if Ascii.eqb c sep then EmptyString :: split sep rest
      else match split sep rest with
           | x :: xs => String c x :: xs
           | [] => [String c EmptyString]
           end
  end.

(** [s.replace(c, "")]: the first occurrence of [c] is dropped. *)
Fixpoint removeFirst (c : ascii) (s : string) : string :=
  match s with
  | EmptyString => EmptyString
  | String x rest => if Ascii.eqb x c then rest else String x (removeFirst c rest)
  end.

(** The value of a hexadecimal digit, either case. *)
Definition hexDigit (c : ascii) : option Z :=
  let n := Z.of_N (N_of_ascii c) in
  if (48 <=? n) && (n <=? 57) then Some (n - 48)
  else if (65 <=? n) && (n <=? 70) then Some (n - 55)
  else if (97 <=? n) && (n <=? 102) then Some (n - 87)
  else None.

Definition decDigit (c : ascii) : option Z :=
  let n := Z.of_N (N_of_ascii c) in
  if (48 <=? n) && (n <=? 57) then Some (n - 48) else None.

(** [Number(s)] on a string of at most 15 decimal digits (the empty string
    is [0]). *)
Fixpoint decValue (acc : Z) (s : string) : option Z :=
  match s with
  | EmptyString => Some acc
  | String c rest =>
      let* d := decDigit c in decValue (acc * 10 + d) rest
  end.

Definition Number (s : string) : option Z :=
  if (String.length s <=? 15)%nat then decValue 0 s else None.

(** The longest prefix of hexadecimal digits, as a number and a count. *)
Fixpoint hexPrefix (acc : Z) (n : nat) (s : string) : Z * nat :=
  match s with
  | EmptyString => (acc, n)
  | String c rest =>
      match hexDigit c with
      | Some d => hexPrefix (acc * 16 + d) (S n) rest
      | None => (acc, n)
      end
  end.

(** [parseInt(s, 16)]: an optional [0x] is skipped, then the longest
    prefix of hexadecimal digits is read; between 1 and 13 digits are
    modelled. *)
Definition parseInt16 (s : string) : option Z :=
  let body :=
    match s with
    | String c0 (String c1 rest) =>
        if Ascii.eqb c0 "0" && (Ascii.eqb c1 "x" || Ascii.eqb c1 "X")
        then rest else s
    | _ => s
    end in
  let '(v, n) := hexPrefix 0 0 body in
  if (1 <=? n)%nat && (n <=? 13)%nat then Some v else None.

(** [hexToRgb]. *)
Definition hexToRgb (hex : string) : option rgb :=
  let* bigint := parseInt16 (removeFirst "#" hex) in
  Some (mkRgb (Z.land (Z.shiftr (ToInt32 bigint) 16) 255)
              (Z.land (Z.shiftr (ToInt32 bigint) 8) 255)
              (Z.land (ToInt32 bigint) 255)).

(** [minutesSinceMidnight], on the hour and minute of the date. *)
Definition minutesSinceMidnight (hours minutes : Z) : Z :=
  hours * 60 + minutes.

(** [timeToMinutes]: [const [h, m] = timeStr.split(":").map(Number)]. *)
Definition timeToMinutes (timeStr : string) : option Z :=
  match split ":" timeStr with
  | hs :: ms :: _ =>
      let* h := Number hs in
      let* m := Number ms in
      Some (h * 60 + m)
  | _ => None
  end.

(** ** Stored user data *)

(** One entry of [lightTimers], as stored. *)
Record TimerWindow : Type := mkTimerWindow {
  fadeIn : string;
  peakStart : string;
  peakEnd : string;
  fadeOut : string;
  color : string
}.

(** [user.settings.timers]. *)
Record Timers : Type := mkTimers {
  lightTimerEnabled : field bool;
  lightTimers : field (list TimerWindow)
}.

(** [user.settings]. *)
Record Settings : Type := mkSettings {
  brightness : field Q;
  timers : field Timers
}.

Record User : Type := mkUser {
  email : string;
  settings : field Settings
}.

(** [users.find((u) => u.email === email)]. *)
Definition findUser (users : list User) (e : string) : option User :=
  find (fun u => String.eqb (email u) e) users.

(** [loadUsers]: the parsed file, or the empty list when it cannot be
    read. *)
Definition loadUsers (file : option (list User)) : list User :=
  match file with
  | Some users => users
  | None => []
  end.

(** Truthiness of a stored flag. *)
Definition truthy (x : field bool) : bool :=
  match x with
  | Val v => v
  | _ => false
  end.

(** ** The timer fade scan: [GET /api/light-timer-color] *)

(** The five constants computed at the top of the loop body. *)
Record Bounds : Type := mkBounds {
  fadeInMins : Z;
  peakStartMins : Z;
  peakEndMins : Z;
  fadeOutMins : Z;
  colorRgb : rgb
}.

Definition readTimer (timer : TimerWindow) : option Bounds :=
  let* fi := timeToMinutes (fadeIn timer) in
  let* ps := timeToMinutes (peakStart timer) in
  let* pe := timeToMinutes (peakEnd timer) in
  let* fo := timeToMinutes (fadeOut timer) in
  let* c := hexToRgb (color timer) in
  Some (mkBounds fi ps pe fo c).

Definition fadeInDuration (w : Bounds) : Z :=
  Z.rem (peakStartMins w - fadeInMins w + 1440) 1440.

Definition fadeInElapsed (nowMins : Z) (w : Bounds) : Z :=
  Z.rem (nowMins - fadeInMins w + 1440) 1440.

Definition inPeak (nowMins : Z) (w : Bounds) : bool :=
  ((peakStartMins w <=? peakEndMins w)
     && (peakStartMins w <=? nowMins) && (nowMins <? peakEndMins w))
  || ((peakEndMins w <? peakStartMins w)
        && ((peakStartMins w <=? nowMins) || (nowMins <? peakEndMins w))).

Definition fadeOutDuration (w : Bounds) : Z :=
  Z.rem (fadeOutMins w - peakEndMins w + 1440) 1440.

Definition fadeOutElapsed (nowMins : Z) (w : Bounds) : Z :=
  Z.rem (nowMins - peakEndMins w + 1440) 1440.

(** [{r: Math.round((color.r * progress * brightness) / 255), ...}]. *)
Definition fadedColor (c : rgb) (progress bri : Q) : rgb :=
  mkRgb (Math_round (inject_Z (r c) * progress * bri / 255))
        (Math_round (inject_Z (g c) * progress * bri / 255))
        (Math_round (inject_Z (b c) * progress * bri / 255)).

(** [{r: Math.round((color.r * brightness) / 255), ...}]. *)
Definition peakColor (c : rgb) (bri : Q) : rgb :=
  mkRgb (Math_round (inject_Z (r c) * bri / 255))
        (Math_round (inject_Z (g c) * bri / 255))
        (Math_round (inject_Z (b c) * bri / 255)).

(** A quotient of two integer numbers; [None] when the divisor is 0 and
    JavaScript yields an infinity or [NaN]. *)
Definition quotient (e d : Z) : option Q :=
  if d =? 0 then None else Some (inject_Z e / inject_Z d)%Q.

(** The colour object built from a progress value: every channel is not
    finite when the progress is not. *)
Definition fadedAnswer (c : rgb) (progress : option Q) (bri : Q) : answer :=
  match progress with
  | Some p => Colour (fadedColor c p bri)
  | None => NonFinite
  end.

(** The third block of the loop body: the fade-out test; [None] is
    falling out of the body to the next timer. *)
Definition fadeOutBlock (nowMins : Z) (bri : Q) (w : Bounds) : option answer :=
  if fadeOutElapsed nowMins w <? fadeOutDuration w then
    let progress :=
      option_map (fun q => (1 - q)%Q)
        (quotient (fadeOutElapsed nowMins w) (fadeOutDuration w)) in
    Some (fadedAnswer (colorRgb w) progress bri)
  else None.

(** The second and third blocks: the peak test, then the fade-out test. *)
Definition peakBlock (nowMins : Z) (bri : Q) (w : Bounds) : option answer :=
  if inPeak nowMins w then Some (Colour (peakColor (colorRgb w) bri))
  else fadeOutBlock nowMins bri w.

(** The whole loop body after the five constants: the fade-in test, then
    the rest. *)
Definition timerBody (nowMins : Z) (bri : Q) (w : Bounds) : option answer :=
  if fadeInElapsed nowMins w <? fadeInDuration w then
    let progress :=
      quotient (fadeInElapsed nowMins w) (fadeInDuration w) in
    Some (fadedAnswer (colorRgb w) progress bri)
  else peakBlock nowMins bri w.

(** [for (const timer of lightTimers) { ... }] and the fall-through
    [return res.json({ color: null })].  The outer [option] is the parsing
    monad: a timer is read only when the scan reaches it. *)
Fixpoint timerLoop (nowMins : Z) (bri : Q) (l : list TimerWindow)
  : option response :=
  match l with
  | [] => Some JsonColorNull
  | timer :: rest =>
      let* w := readTimer timer in
      match timerBody nowMins bri w with
      | Some a => Some (respond a)
      | None => timerLoop nowMins bri rest
      end
  end.

(** [Array.isArray] on a stored list. *)
Definition isArray {A : Type} (x : field (list A)) : bool :=
  match x with
  | Val _ => true
  | _ => false
  end.

(** The engine of the handler, from the destructuring of
    [user.settings.timers] on: the short-circuit
    [if (!lightTimerEnabled || !Array.isArray(lightTimers))], then the
    scan. *)
Definition computeTimerColor (nowMins : Z) (cfg : Timers) (bri : Q)
  : option response :=
  if negb (truthy (lightTimerEnabled cfg)) || negb (isArray (lightTimers cfg))
  then Some JsonColorNull
  else
    match lightTimers cfg with
    | Val l => timerLoop nowMins bri l
    | _ => Some JsonColorNull
    end.

(** The handler [GET /api/light-timer-color]. *)
Definition lightTimerColor (queryEmail : option string)
    (file : option (list User)) (hours minutes : Z) : option response :=
  match queryEmail with
  | None | Some EmptyString => Some (Status 400 "Email is required")
  | Some e =>
      match findUser (loadUsers file) e with
      | Some (mkUser _ (Val (mkSettings bri (Val cfg)))) =>
          computeTimerColor (minutesSinceMidnight hours minutes) cfg
            (orDefault255 bri)
      | _ => Some (Status 404 "User or settings not found")
      end
  end.

(** The current handler [GET /api/auto-light]: it reads the user file
    itself and answers 500 when that fails. *)
Definition autoLight (Math_sin : Q -> Q) (queryEmail : option string)
    (file : option (list User)) (hour minute : Z) : response :=
  match queryEmail with
  | None | Some EmptyString => Status 400 "Email is required"
  | Some e =>
      match file with
      | None => Status 500 "Failed to read user data"
      | Some users =>
          match findUser users e with
          | Some (mkUser _ (Val s)) =>
              JsonRgb (computeDaylightColor Math_sin
                         (fractionalHour hour minute)
                         (orDefault255 (brightness s)))
          | _ => Status 404 "User not found or missing settings"
          end
      end
  end.

(** The earlier [GET /api/auto-light]: no query, no user. *)
Definition autoLightLegacy (Math_sin : Q -> Q) (hour minute : Z) : response :=
  JsonRgb (computeDaylightColorLegacy Math_sin (fractionalHour hour minute)).

(** ** The same arithmetic on binary64

    The handlers' arithmetic once more, on the machine's binary64 numbers
    with their rounding, for evaluating concrete inputs bit for bit.
    [Math_round] yields [None] on [NaN] and the infinities, which
    [res.json] serialises as [null]. *)
Module Binary64.

(** An integer below 2^53 in absolute value, as a float. *)
Definition ofZ (z : Z) : float :=
  if z <? 0 then PrimFloat.opp (PrimFloat.of_uint63 (Uint63.of_Z (- z)))
  else PrimFloat.of_uint63 (Uint63.of_Z z).

(** [Math.round]: the float is [n * 2^e]; the nearest integer, ties up,
    is the floor of [(2 n 2^e + 1) / 2]. *)
Definition Math_round64 (x : float) : option Z :=
  match Prim2SF x with
  | S754_zero _ => Some 0
  | S754_finite s m e =>
      let n := if s then - Z.pos m else Z.pos m in
      if 0 <=? e then Some (n * 2 ^ e)
      else Some ((2 * n + 2 ^ (- e)) / (2 * 2 ^ (- e)))
  | S754_infinity _ => None
  | S754_nan => None
  end.

Definition Math_PI64 : float := 0x1.921fb54442d18p+1%float.

Definition fractionalHour64 (hour minute : Z) : float :=
  (ofZ hour + ofZ minute / 60)%float.

(** [time < 6 || time >= 18]. *)
Definition nightTest (time : float) : bool :=
  PrimFloat.ltb time 6 || PrimFloat.leb 18 time.

(** [time < 12]. *)
Definition beforeNoon (time : float) : bool := PrimFloat.ltb time 12.

Definition angleRad (time : float) : float :=
  let angleDeg := ((time - 6) / 12 * 180)%float in
  (angleDeg * Math_PI64 / 180)%float.

Definition rgbOf (cr cg cb : option Z) : option rgb :=
  match cr, cg, cb with
  | Some x, Some y, Some z => Some (mkRgb x y z)
  | _, _, _ => None
  end.

(** The night branch of the current handler. *)
Definition nightColor64 (bri : Z) : option rgb :=
  rgbOf (Math_round64 (20 * ofZ bri / 255)%float)
        (Math_round64 (20 * ofZ bri / 255)%float)
        (Math_round64 (60 * ofZ bri / 255)%float).

(** The final scaling of the day branch. *)
Definition scaledColor64 (cr cg cb : float) (bri : Z) : option rgb :=
  rgbOf (Math_round64 (cr * ofZ bri / 255)%float)
        (Math_round64 (cg * ofZ bri / 255)%float)
        (Math_round64 (cb * ofZ bri / 255)%float).

Definition fadedColor64 (c : rgb) (progress : float) (bri : Z) : option rgb :=
  rgbOf (Math_round64 (ofZ (r c) * progress * ofZ bri / 255)%float)
        (Math_round64 (ofZ (g c) * progress * ofZ bri / 255)%float)
        (Math_round64 (ofZ (b c) * progress * ofZ bri / 255)%float).

Definition peakColor64 (c : rgb) (bri : Z) : option rgb :=
  rgbOf (Math_round64 (ofZ (r c) * ofZ bri / 255)%float)
        (Math_round64 (ofZ (g c) * ofZ bri / 255)%float)
        (Math_round64 (ofZ (b c) * ofZ bri / 255)%float).

(** The loop body; the outer [option] is the match, the inner one the
    finiteness of the channels. *)
Definition timerBody64 (nowMins bri : Z) (w : Bounds) : option (option rgb) :=
  if fadeInElapsed nowMins w <? fadeInDuration w then
    let progress :=
      (ofZ (fadeInElapsed nowMins w) / ofZ (fadeInDuration w))%float in
    Some (fadedColor64 (colorRgb w) progress bri)
  else if inPeak nowMins w then Some (peakColor64 (colorRgb w) bri)
  else if fadeOutElapsed nowMins w <? fadeOutDuration w then
    let progress :=
      (1 - ofZ (fadeOutElapsed nowMins w) / ofZ (fadeOutDuration w))%float in
    Some (fadedColor64 (colorRgb w) progress bri)
  else None.

End Binary64.

(** ** The user file and the handlers that write it

    [users.json] as JSON values, and the handlers that read and write it:
    registration, login, the token check, the settings and timer
    endpoints and the daylight switch.  [bcrypt] and [jsonwebtoken] are
    parameters.  A handler yields [None] on a request outside the modelled
    fragment (a value of the wrong JSON type where the library or the
    language would coerce or throw). *)

Section Store.

Local Open Scope string_scope.

#[local] Set Warnings "-register-all".

(** A JSON value, as [JSON.parse] yields it and [JSON.stringify] writes
    it. *)
Inductive json : Type :=
| JNull
| JBool (b : bool)
| JNum (q : Q)
| JStr (s : string)
| JArr (items : list json)
| JObj (props : list (string * json)).

(** An object: its own properties in insertion order.  A property whose
    value is [undefined] is not written by [JSON.stringify], so it is
    absent. *)
Definition obj : Type := list (string * json).

(** [o.k]: [None] is [undefined]. *)
Fixpoint prop (k : string) (o : obj) : option json :=
  match o with
  | [] => None
  | (k', v) :: rest => if String.eqb k' k then Some v else prop k rest
  end.

(** [o.k = v] for a defined [v]: in place when the key exists, at the end
    otherwise. *)
Fixpoint setProp (k : string) (v : json) (o : obj) : obj :=
  match o with
  | [] => [(k, v)]
  | (k', v') :: rest =>
      if String.eqb k' k then (k, v) :: rest
      else (k', v') :: setProp k v rest
  end.

Definition dropProp (k : string) (o : obj) : obj :=
  filter (fun kv => negb (String.eqb (fst kv) k)) o.

(** [o.k = v] where [v] may be [undefined]. *)
Definition assign (k : string) (v : option json) (o : obj) : obj :=
  match v with
  | Some x => setProp k x o
  | None => dropProp k o
  end.

(** An object literal [{k1: v1, ...}] with distinct keys. *)
Definition literal (l : list (string * option json)) : obj :=
  fold_left (fun o kv => assign (fst kv) (snd kv) o) l [].

(** Truthiness: [undefined], [null], [false], [0] and [""] are falsy. *)
Definition truthyJson (v : option json) : bool :=
  match v with
  | None => false
  | Some JNull => false
  | Some (JBool x) => x
  | Some (JNum q) => negb (Qeq_bool q 0)
  | Some (JStr s) => negb (String.eqb s "")
  | Some (JArr _) => true
  | Some (JObj _) => true
  end.

(** [x === y] between values parsed from different texts: two arrays or
    two objects are never the same object. *)
Definition strictEq (x y : option json) : bool :=
  match x, y with
  | None, None => true
  | Some JNull, Some JNull => true
  | Some (JBool a), Some (JBool c) => Bool.eqb a c
  | Some (JNum p), Some (JNum q) => Qeq_bool p q
  | Some (JStr s), Some (JStr t) => String.eqb s t
  | _, _ => false
  end.

(** [x || {}] used as an object afterwards: a truthy value that is not an
    object is outside the model. *)
Definition objOrEmpty (v : option json) : option obj :=
  match v with
  | Some (JObj o) => Some o
  | _ => if truthyJson v then None else Some []
  end.

(** [{...x}]: an object gives its properties, [undefined], [null], a
    boolean or a number give none; strings and arrays are outside the
    model. *)
Definition spreadOf (v : option json) : option obj :=
  match v with
  | Some (JObj o) => Some o
  | Some (JStr _) => None
  | Some (JArr _) => None
  | _ => Some []
  end.

(** The file [users.json]: missing; present but not holding a JSON array
    (another JSON value, or no JSON at all); or an array of user
    objects. *)
Inductive usersFile : Type :=
| NoFile
| NotArray
| Users (l : list obj).

(** [loadUsers]: a missing file is created empty. *)
Definition loadUsersJson (f : usersFile) : usersFile * list obj :=
  match f with
  | NoFile => (Users [], [])
  | NotArray => (NotArray, [])
  | Users l => (Users l, l)
  end.

Definition saveUsers (users : list obj) : usersFile := Users users.

(** What a handler sends, or that it threw. *)
Inductive reply : Type :=
| Reply (code : Z) (body : json)
| Threw.

Definition message (m : string) : json := JObj [("message", JStr m)].

(** [users.find((u) => u.email === email)]. *)
Definition findUserJson (users : list obj) (e : option json) : option obj :=
  find (fun u => strictEq (prop "email" u) e) users.

(** The array after the object found by [find] or [findIndex] has been
    changed to [u']. *)
Fixpoint replaceFirst (e : option json) (u' : obj) (users : list obj)
  : list obj :=
  match users with
  | [] => []
  | u :: rest =>
      if strictEq (prop "email" u) e then u' :: rest
      else u :: replaceFirst e u' rest
  end.

(** [x || {}] sent as a body. *)
Definition orEmptyObject (v : option json) : json :=
  match v with
  | Some x => if truthyJson v then x else JObj []
  | None => JObj []
  end.

(** [GET /settings], after [authMiddleware]. *)
Definition getSettings (reqEmail : option json) (f : usersFile)
  : usersFile * reply :=
  let '(f1, users) := loadUsersJson f in
  match findUserJson users reqEmail with
  | None => (f1, Reply 404 (message "User data not found for this token"))
  | Some user => (f1, Reply 200 (orEmptyObject (prop "settings" user)))
  end.

(** [POST /settings], after [authMiddleware]. *)
Definition postSettings (reqEmail : option json) (body : obj) (f : usersFile)
  : option (usersFile * reply) :=
  let '(f1, users) := loadUsersJson f in
  match findUserJson users reqEmail with
  | None => Some (f1, Reply 404 (message "User not found"))
  | Some user =>
      let* old := spreadOf (prop "settings" user) in
      let new :=
        assign "filter" (prop "filter" body)
          (assign "brightness" (prop "brightness" body)
             (assign "b" (prop "b" body)
                (assign "g" (prop "g" body)
                   (assign "r" (prop "r" body) old)))) in
      Some (saveUsers
              (replaceFirst reqEmail (setProp "settings" (JObj new) user) users),
            Reply 200 (message "Settings saved successfully"))
  end.



(** [POST /api/timers], after [authMiddleware]. *)
Definition postTimers (reqEmail : option json) (body : obj) (f : usersFile)
  : option (usersFile * reply) :=
  let '(f1, users) := loadUsersJson f in
  match findUserJson users reqEmail with
  | None => Some (f1, Reply 404 (message "User not found"))
  | Some user =>
      let* s0 := objOrEmpty (prop "settings" user) in
      let autoDaylight :=
        match prop "autoDaylight" body with
        | Some (JBool a) => JBool a
        | _ =>
            match prop "autoDaylight" s0 with
            | Some x => if truthyJson (Some x) then x else JBool false
            | None => JBool false
            end
        end in
      let s1 := setProp "autoDaylight" autoDaylight s0 in
      let* t0 := objOrEmpty (prop "timers" s1) in
      let t1 :=
        assign "co2Timers" (prop "co2Timers" body)
          (assign "lightTimers" (prop "lightTimers" body)
             (assign "co2TimerEnabled" (prop "co2TimerEnabled" body)
                (assign "lightTimerEnabled" (prop "lightTimerEnabled" body)
                   t0))) in
      let s2 := setProp "timers" (JObj t1) s1 in
      Some (saveUsers
              (replaceFirst reqEmail (setProp "settings" (JObj s2) user) users),
            Reply 200 (message "Timer settings saved successfully"))
  end.

(** The body of [POST /api/save-auto-daylight]. *)
Definition autoDaylightReply (success : bool) (disabled : option bool) : json :=
  JObj (literal [("success", Some (JBool success));
                 ("lightTimerDisabledByAutoDaylight", option_map JBool disabled)]).

(** [POST /api/save-auto-daylight], after [authMiddleware]: switching the
    daylight mode on switches a light timer that is on off. *)
Definition postSaveAutoDaylight (reqEmail : option json) (body : obj)
    (f : usersFile) : option (usersFile * reply) :=
  match prop "autoDaylight" body with
  | Some (JBool autoDaylight) =>
      let '(f1, users) := loadUsersJson f in
      match findUserJson users reqEmail with
      | None => Some (f1, Reply 404 (autoDaylightReply false None))
      | Some user =>
          let* s0 := objOrEmpty (prop "settings" user) in
          let* sd :=
            if autoDaylight then
              let* t0 := objOrEmpty (prop "timers" s0) in
              if strictEq (prop "lightTimerEnabled" t0) (Some (JBool true))
              then Some (setProp "timers"
                           (JObj (setProp "lightTimerEnabled" (JBool false) t0))
                           s0, true)
              else Some (setProp "timers" (JObj t0) s0, false)
            else Some (s0, false) in
          let s2 := setProp "autoDaylight" (JBool autoDaylight) (fst sd) in
          Some (saveUsers
                  (replaceFirst reqEmail (setProp "settings" (JObj s2) user)
                     users),
                Reply 200 (autoDaylightReply true (Some (snd sd))))
      end
  | _ => Some (f, Reply 400 (autoDaylightReply false None))
  end.

(** The earlier [POST /api/save-auto-daylight]: it stores the flag only. *)
Definition postSaveAutoDaylightLegacy (reqEmail : option json) (body : obj)
    (f : usersFile) : option (usersFile * reply) :=
  match prop "autoDaylight" body with
  | Some (JBool autoDaylight) =>
      let '(f1, users) := loadUsersJson f in
      match findUserJson users reqEmail with
      | None => Some (f1, Reply 404 (autoDaylightReply false None))
      | Some user =>
          let* s0 := objOrEmpty (prop "settings" user) in
          let s2 := setProp "autoDaylight" (JBool autoDaylight) s0 in
          Some (saveUsers
                  (replaceFirst reqEmail (setProp "settings" (JObj s2) user)
                     users),
                Reply 200 (autoDaylightReply true None))
      end
  | _ => Some (f, Reply 400 (autoDaylightReply false None))
  end.

(** [POST /api/get-auto-daylight]: no [authMiddleware]. *)
Definition postGetAutoDaylight (body : obj) (f : usersFile)
  : usersFile * reply :=
  if truthyJson (prop "email" body) then
    let '(f1, users) := loadUsersJson f in
    match findUserJson users (prop "email" body) with
    | None => (f1, Reply 404 (JObj [("error", JStr "User not found")]))
    | Some user => (f1, Reply 200 (orEmptyObject (prop "settings" user)))
    end
  else (f, Reply 400 (JObj [("error", JStr "Missing email")])).

Section Accounts.

(** [bcrypt.hashSync(password, 10)] with the salt it draws, and
    [bcrypt.compareSync], on strings. *)
Variable hashSync : string -> string -> string.
Variable compareSync : string -> string -> bool.

(** [jwt.sign(payload, JWT_SECRET, {expiresIn: "2h"})] at a given time,
    with the payload's [email] and [firstName]; [jwt.verify] at a given
    time, [None] when it throws. *)
Variable jwt_sign : Z -> option json -> option json -> string.
Variable jwt_verify : Z -> string -> option (option json * option json).

(** [POST /register]; a password that is not a string is outside the
    model. *)
Definition postRegister (salt : string) (body : obj) (f : usersFile)
  : option (usersFile * reply) :=
  let '(f1, users) := loadUsersJson f in
  if existsb (fun user => strictEq (prop "email" user) (prop "email" body)) users
  then Some (f1, Reply 400 (message "Email already exists"))
  else
    match prop "password" body with
    | Some (JStr password) =>
        let user :=
          literal [("firstName", prop "firstName" body);
                   ("lastName", prop "lastName" body);
                   ("email", prop "email" body);
                   ("password", Some (JStr (hashSync salt password)));
                   ("settings", Some (JObj []))] in
        Some (saveUsers (users ++ [user]),
              Reply 201 (message "Registration successful"))
    | _ => None
    end.

(** [POST /login]; a truthy password or a stored hash that is not a
    string is outside the model. *)
Definition postLogin (now : Z) (body : obj) (f : usersFile)
  : option (usersFile * reply) :=
  if negb (truthyJson (prop "email" body))
     || negb (truthyJson (prop "password" body))
  then Some (f, Reply 400 (message "Email and password are required"))
  else
    let '(f1, users) := loadUsersJson f in
    match findUserJson users (prop "email" body) with
    | None => Some (f1, Reply 401 (message "Invalid credentials"))
    | Some user =>
        match prop "password" body, prop "password" user with
        | Some (JStr password), Some (JStr hash) =>
            if compareSync password hash then
              Some (f1, Reply 200
                          (JObj [("token",
                                  JStr (jwt_sign now (prop "email" user)
                                          (prop "firstName" user)))]))
            else Some (f1, Reply 401 (message "Invalid credentials"))
        | _, _ => None
        end
    end.

(** [authMiddleware]: the second word of the [Authorization] header is
    the token; the reply on failure, or [req.email] and
    [req.firstName]. *)
Definition authMiddleware (now : Z) (authorization : option string)
  : reply + (option json * option json) :=
  let token :=
    match authorization with
    | None => None
    | Some EmptyString => None
    | Some h => nth_error (split " " h) 1
    end in
  match token with
  | None => inl (Reply 401 (message "Missing token"))
  | Some EmptyString => inl (Reply 401 (message "Missing token"))
  | Some t =>
      match jwt_verify now t with
      | Some decoded => inr decoded
      | None => inl (Reply 403 (message "Invalid or expired token"))
      end
  end.

(** [POST /api/verify-token], after [authMiddleware]. *)
Definition postVerifyToken (reqEmail reqFirstName : option json) : reply :=
  Reply 200 (JObj (literal [("email", reqEmail);
                            ("firstName", reqFirstName);
                            ("message", Some (JStr "Token is valid"))])).

End Accounts.

(** ** Reading the user file as the colour handlers see it *)

Definition decodeWindow (j : json) : option TimerWindow :=
  match j with
  | JObj o =>
      match prop "fadeIn" o, prop "peakStart" o, prop "peakEnd" o,
            prop "fadeOut" o, prop "color" o with
      | Some (JStr a), Some (JStr b0), Some (JStr c), Some (JStr d),
        Some (JStr e) => Some (mkTimerWindow a b0 c d e)
      | _, _, _, _, _ => None
      end
  | _ => None
  end.

Fixpoint decodeAll {A B : Type} (f : A -> option B) (l : list A)
  : option (list B) :=
  match l with
  | [] => Some []
  | x :: rest =>
      let* y := f x in
      let* ys := decodeAll f rest in
      Some (y :: ys)
  end.

(** [lightTimerEnabled] is stored as it was sent and the colour handler
    tests only its truthiness ([!lightTimerEnabled]): a stored value
    other than [null] is read as its truthiness. *)
Definition decodeFlag (v : option json) : option (field bool) :=
  match v with
  | None => Some Missing
  | Some JNull => Some IsNull
  | Some x => Some (Val (truthyJson (Some x)))
  end.

Definition decodeNumber (v : option json) : option (field Q) :=
  match v with
  | None => Some Missing
  | Some JNull => Some IsNull
  | Some (JNum q) => Some (Val q)
  | _ => None
  end.

Definition decodeWindows (v : option json)
  : option (field (list TimerWindow)) :=
  match v with
  | None => Some Missing
  | Some JNull => Some IsNull
  | Some (JArr l) => option_map Val (decodeAll decodeWindow l)
  | _ => None
  end.

Definition decodeTimers (v : option json) : option (field Timers) :=
  match v with
  | None => Some Missing
  | Some JNull => Some IsNull
  | Some (JObj o) =>
      let* en := decodeFlag (prop "lightTimerEnabled" o) in
      let* l := decodeWindows (prop "lightTimers" o) in
      Some (Val (mkTimers en l))
  | _ => None
  end.

Definition decodeSettings (v : option json) : option (field Settings) :=
  match v with
  | None => Some Missing
  | Some JNull => Some IsNull
  | Some (JObj o) =>
      let* bri := decodeNumber (prop "brightness" o) in
      let* t := decodeTimers (prop "timers" o) in
      Some (Val (mkSettings bri t))
  | _ => None
  end.

Definition decodeUser (u : obj) : option User :=
  match prop "email" u with
  | Some (JStr e) =>
      let* s := decodeSettings (prop "settings" u) in
      Some (mkUser e s)
  | _ => None
  end.

Definition decodeUsers (users : list obj) : option (list User) :=
  decodeAll decodeUser users.

(** ** The two names of the user file

    [loadUsers] and [saveUsers] open [USERS_FILE = "users.json"], a
    relative name that [fs] resolves against the working directory of the
    process.  The current [GET /api/auto-light] opens
    [path.join(__dirname, "users.json")], the file beside [server.js].
    The two are one file when the server was started in its own
    directory, and two files otherwise. *)

(** [process.cwd()] and [__dirname]. *)
Record Process : Type := mkProcess { cwd : string; dirname : string }.

(** The files named [users.json] on the disk, by directory. *)
Definition disk : Type := string -> usersFile.

Definition writeUsersFile (dir : string) (f : usersFile) (d : disk) : disk :=
  fun dir' => if String.eqb dir' dir then f else d dir'.

(** A handler that goes through [loadUsers] and [saveUsers], on the disk:
    it reads and writes the file of the working directory. *)
Definition onDisk (h : usersFile -> option (usersFile * reply))
    (p : Process) (d : disk) : option (disk * reply) :=
  let* out := h (d (cwd p)) in
  Some (writeUsersFile (cwd p) (fst out) d, snd out).

(** The current [GET /api/auto-light] on the disk: after the test of the
    query it reads the file beside [server.js].  A file that is there but
    holds no array, or users outside the typed view, is outside the
    model. *)
Definition autoLightOnDisk (Math_sin : Q -> Q) (p : Process) (d : disk)
    (queryEmail : option string) (hour minute : Z) : option response :=
  match queryEmail with
  | None | Some EmptyString =>
      Some (autoLight Math_sin queryEmail None hour minute)
  | Some _ =>
      match d (dirname p) with
      | NoFile => Some (autoLight Math_sin queryEmail None hour minute)
      | NotArray => None
      | Users l =>
          let* users := decodeUsers l in
          Some (autoLight Math_sin queryEmail (Some users) hour minute)
      end
  end.

(** [GET /api/light-timer-color] on the disk: after the test of the query
    it goes through [loadUsers], which reads the file of the working
    directory and creates it when it is missing. *)
Definition lightTimerColorOnDisk (p : Process) (d : disk)
    (queryEmail : option string) (hours minutes : Z)
  : option (disk * response) :=
  match queryEmail with
  | None | Some EmptyString =>
      let* resp := lightTimerColor queryEmail None hours minutes in
      Some (d, resp)
  | Some _ =>
      let '(f1, l) := loadUsersJson (d (cwd p)) in
      let* users := decodeUsers l in
      let* resp := lightTimerColor queryEmail (Some users) hours minutes in
      Some (writeUsersFile (cwd p) f1 d, resp)
  end.

End Store.

(** ** Vocabulary of the specification *)

(** The integers [0, 1, ..., n - 1]. *)
Definition upto (n : nat) : list Z := map Z.of_nat (seq 0 n).

(** Equality test on colours, and on an optional colour against a
    colour. *)
Definition rgb_eqb (x y : rgb) : bool :=
  (r x =? r y) && (g x =? g y) && (b x =? b y).

Definition some_rgb_eqb (x : option rgb) (y : rgb) : bool :=
  match x with
  | Some c => rgb_eqb c y
  | None => false
  end.

(** The constants the loop body computes for the round-trip window. *)
Definition dayBounds : Bounds :=
  mkBounds 360 420 1140 1200 (mkRgb 255 153 0).

(** Rounding a quotient of integers, in integer arithmetic: the nearest
    integer to [n / d], ties going up. *)
Definition roundDiv (n d : Z) : Z := (2 * n + d) / (2 * d).

(** Brightness scaling of the data model: each channel becomes
    [channel * brightness / 255], rounded to the nearest integer. *)
Definition scaleColor (c : rgb) (bri : Z) : rgb :=
  mkRgb (roundDiv (r c * bri) 255)
        (roundDiv (g c * bri) 255)
        (roundDiv (b c * bri) 255).

(** [z] is the integer nearest to [x], the upper one on a tie. *)
Definition nearest (x : Q) (z : Z) : Prop :=
  (inject_Z z - (1 # 2) <= x < inject_Z z + (1 # 2))%Q.

(** The same scaling for a brightness that need not be an integer: each
    channel of [out] is nearest to the channel of [c] times
    [bri / 255]. *)
Definition scaledTo (c : rgb) (bri : Q) (out : rgb) : Prop :=
  nearest (inject_Z (r c) * (bri / 255)) (r out)
  /\ nearest (inject_Z (g c) * (bri / 255)) (g out)
  /\ nearest (inject_Z (b c) * (bri / 255)) (b out).

(** The fixed night colour. *)
Definition nightColor : rgb := mkRgb 20 20 60.

(** The brightness the handlers compute with for a stored integer
    brightness: [n || 255]. *)
Definition effectiveBrightness (n : Z) : Z := if n =? 0 then 255 else n.

(** A colour whose channels are all in 0..255. *)
Definition inRange (c : rgb) : Prop :=
  0 <= r c <= 255 /\ 0 <= g c <= 255 /\ 0 <= b c <= 255.

(** The three unrounded channels are those of the colour [c]. *)
Definition channelsAre (p : Q * Q * Q) (c : rgb) : Prop :=
  (fst (fst p) == inject_Z (r c))%Q
  /\ (snd (fst p) == inject_Z (g c))%Q
  /\ (snd p == inject_Z (b c))%Q.

(** A minute of the day. *)
Definition validMinutes (m : Z) : Prop := 0 <= m < 1440.

(** A stored brightness that [||] replaces: absent, [null] or zero. *)
Definition falsy (x : field Q) : Prop :=
  x = Missing \/ x = IsNull \/ exists q, x = Val q /\ (q == 0)%Q.

(** A well-formed time boundary: hours and minutes in decimal digits
    around a colon, hours below 24 and minutes below 60. *)
Definition validClock (s : string) : bool :=
  match split ":" s with
  | [hs; ms] =>
      match Number hs, Number ms with
      | Some h, Some m => (h <? 24) && (m <? 60)
      | _, _ => false
      end
  | _ => false
  end.

Definition isHexDigit (c : ascii) : bool :=
  match hexDigit c with
  | Some _ => true
  | None => false
  end.

Fixpoint allHex (s : string) : bool :=
  match s with
  | EmptyString => true
  | String c rest => isHexDigit c && allHex rest
  end.

(** A well-formed colour: six hexadecimal digits after an optional
    leading [#]. *)
Definition validHex (s : string) : bool :=
  let body :=
    match s with
    | String c rest => if Ascii.eqb c "#" then rest else s
    | EmptyString => s
    end in
  (String.length body =? 6)%nat && allHex body.

(** A well-formed stored window. *)
Definition wellFormedTimer (t : TimerWindow) : bool :=
  validClock (fadeIn t) && validClock (peakStart t)
  && validClock (peakEnd t) && validClock (fadeOut t)
  && validHex (color t).

(** A configuration whose windows, if it has a list, are well formed. *)
Definition wellFormedTimers (cfg : Timers) : bool :=
  match lightTimers cfg with
  | Val l => forallb wellFormedTimer l
  | _ => true
  end.

(** The constants of a window read from well-formed data: four minutes of
    the day and a colour in range. *)
Definition validBounds (w : Bounds) : Prop :=
  validMinutes (fadeInMins w) /\ validMinutes (peakStartMins w)
  /\ validMinutes (peakEndMins w) /\ validMinutes (fadeOutMins w)
  /\ inRange (colorRgb w).

(** Each unrounded channel lies between the channels of two colours. *)
Definition channelsBetween (lo hi : rgb) (p : Q * Q * Q) : Prop :=
  (inject_Z (r lo) <= fst (fst p) <= inject_Z (r hi))%Q
  /\ (inject_Z (g lo) <= snd (fst p) <= inject_Z (g hi))%Q
  /\ (inject_Z (b lo) <= snd p <= inject_Z (b hi))%Q.

(** The current time lies in the fade-in, peak or fade-out phase of the
    window. *)
Definition active (nowMins : Z) (w : Bounds) : bool :=
  (fadeInElapsed nowMins w <? fadeInDuration w)
  || inPeak nowMins w
  || (fadeOutElapsed nowMins w <? fadeOutDuration w).

(** The timer configuration of an enabled timer with the given list. *)
Definition enabledTimers (l : list TimerWindow) : Timers :=
  mkTimers (Val true) (Val l).

(** The window of the specification's round trip: fade in from 06:00,
    peak from 07:00 to 19:00, fade out until 20:00, colour #FF9900. *)
Definition dayTimer : TimerWindow :=
  mkTimerWindow "06:00" "07:00" "19:00" "20:00" "#FF9900".

(** A window whose peak spans midnight. *)
Definition nightTimer : TimerWindow :=
  mkTimerWindow "21:00" "22:00" "02:00" "03:00" "#0000FF".

(** A window that switches on and off without fading. *)
Definition instantTimer : TimerWindow :=
  mkTimerWindow "07:00" "07:00" "19:00" "19:00" "#FF9900".

(** The constants the loop body computes for [instantTimer]. *)
Definition instantBounds : Bounds :=
  mkBounds 420 420 1140 1140 (mkRgb 255 153 0).

(** A window stored with boundaries that are not times of day. *)
Definition strayTimer : TimerWindow :=
  mkTimerWindow "99:00" "99:00" "19:00" "20:00" "#FF9900".

Definition strayBounds : Bounds :=
  mkBounds 5940 5940 1140 1200 (mkRgb 255 153 0).

(** A window whose peak end and fade-out end are stored as the same
    boundary outside the day. *)
Definition strayOutTimer : TimerWindow :=
  mkTimerWindow "06:00" "07:00" "99:00" "99:00" "#FF9900".

Definition strayOutBounds : Bounds :=
  mkBounds 360 420 5940 5940 (mkRgb 255 153 0).

(** A user with the given stored brightness and an enabled timer with the
    given windows. *)
Definition userWith (bri : field Q) (l : list TimerWindow) : User :=
  mkUser "dim@example.org" (Val (mkSettings bri (Val (enabledTimers l)))).

(** A user who stored brightness 0 and one enabled timer. *)
Definition dimUser : User :=
  mkUser "dim@example.org"
    (Val (mkSettings (Val 0%Q) (Val (enabledTimers [dayTimer])))).

(** Bhaskara's rational approximation of the sine on [0, pi], with
    [Math_PI] for pi: it is 0 at 0 and at pi and 1 at pi/2.  It serves as
    a concrete host sine. *)
Definition bhaskaraSin (x : Q) : Q :=
  (16 * x * (Math_PI - x) / (5 * Math_PI * Math_PI - 4 * x * (Math_PI - x)))%Q.

(** ** Vocabulary of the further properties *)

(** No channel of [x] is above the same channel of [y]. *)
Definition dimmer (x y : rgb) : Prop :=
  r x <= r y /\ g x <= g y /\ b x <= b y.

(** The character does not occur in the string. *)
Fixpoint lacks (c : ascii) (s : string) : bool :=
  match s with
  | EmptyString => true
  | String x rest => negb (Ascii.eqb x c) && lacks c rest
  end.

(** The status code of an error answer. *)
Definition statusOf (resp : response) : option Z :=
  match resp with
  | Status code _ => Some code
  | _ => None
  end.

Section StoreVocabulary.

Local Open Scope string_scope.


Definition timerKeys : list string :=
  ["lightTimerEnabled"; "co2TimerEnabled"; "lightTimers"; "co2Timers"].

(** The properties of a value read with [.k]: none unless it is an
    object. *)
Definition propsOfOpt (v : option json) : obj :=
  match v with
  | Some (JObj o) => o
  | _ => []
  end.

(** [user.settings] and [user.settings.timers] of a stored user. *)
Definition storedSettings (u : obj) : obj := propsOfOpt (prop "settings" u).

Definition storedTimers (u : obj) : obj :=
  propsOfOpt (prop "timers" (storedSettings u)).

(** [v === true]. *)
Definition isTrue (v : option json) : bool := strictEq v (Some (JBool true)).

(** The handlers that write a user's settings, applied to one request. *)
Inductive settingsWrite : Type :=
| WriteSettings
| WriteTimers
| WriteAutoDaylight
| WriteAutoDaylightLegacy.

Definition runWrite (h : settingsWrite) (reqEmail : option json) (body : obj)
    (f : usersFile) : option (usersFile * reply) :=
  match h with
  | WriteSettings => postSettings reqEmail body f
  | WriteTimers => postTimers reqEmail body f
  | WriteAutoDaylight => postSaveAutoDaylight reqEmail body f
  | WriteAutoDaylightLegacy => postSaveAutoDaylightLegacy reqEmail body f
  end.


(** Stand-ins for [bcrypt] and [jsonwebtoken] with which the handlers can
    be run: the hash is the password, the only token is ["token"]. *)
Definition plainHash (salt password : string) : string := password.

Definition plainCompare (password hash : string) : bool :=
  String.eqb password hash.

Definition fixedSign (now : Z) (e firstName : option json) : string := "token".

Definition fixedVerify (now : Z) (token : string)
  : option (option json * option json) :=
  if String.eqb token "token"
  then Some (Some (JStr "dim@example.org"), Some (JStr "Dim"))
  else None.

(** A stored user with brightness 128, both modes off and one timer. *)
Definition dayTimerJson : json :=
  JObj [("fadeIn", JStr "06:00"); ("peakStart", JStr "07:00");
        ("peakEnd", JStr "19:00"); ("fadeOut", JStr "20:00");
        ("color", JStr "#FF9900")].

Definition storedUser (lightTimerOn : bool) : obj :=
  [("firstName", JStr "Dim"); ("email", JStr "dim@example.org");
   ("password", JStr "secret");
   ("settings",
    JObj [("brightness", JNum 128);
          ("timers",
           JObj [("lightTimerEnabled", JBool lightTimerOn);
                 ("lightTimers", JArr [dayTimerJson])])])].

(** The same user with any stored [lightTimerEnabled]. *)
Definition storedUserFlag (flag : json) : obj :=
  [("firstName", JStr "Dim"); ("email", JStr "dim@example.org");
   ("password", JStr "secret");
   ("settings",
    JObj [("brightness", JNum 128);
          ("timers",
           JObj [("lightTimerEnabled", flag);
                 ("lightTimers", JArr [dayTimerJson])])])].

Definition reqEmailDim : option json := Some (JStr "dim@example.org").

(** A stored flag that is the boolean [true], or falsy. *)
Definition trueOrFalsy (v : option json) : Prop :=
  isTrue v = true \/ truthyJson v = false.

(** The users of a file as the colour handlers read them. *)
Definition typedFile (f : usersFile) : option (list User) :=
  match f with
  | Users l => decodeUsers l
  | _ => None
  end.

(** A server started in its own directory, and one started elsewhere. *)
Definition ownDirectory : Process := mkProcess "/srv/aqua" "/srv/aqua".

Definition otherDirectory : Process := mkProcess "/home/pi" "/srv/aqua".

(** A disk with one user file, in the given directory. *)
Definition diskWith (dir : string) (f : usersFile) : disk :=
  writeUsersFile dir f (fun _ => NoFile).


Definition timersBody : obj :=
  [("autoDaylight", JBool true); ("lightTimerEnabled", JBool true);
   ("lightTimers", JArr [dayTimerJson])].

Definition daylightOn : obj := [("autoDaylight", JBool true)].

Definition registerBody : obj :=
  [("firstName", JStr "New"); ("email", JStr "new@example.org");
   ("password", JStr "pw")].

Definition wrongLogin : obj :=
  [("email", JStr "dim@example.org"); ("password", JStr "wrong")].

End StoreVocabulary.

(** * Properties *)

(** ** Rounding and comparison lemmas *)

Lemma Qlt_bool_iff (x y : Q) : Qlt_bool x y = true <-> (x < y)%Q.
Proof. unfold Qlt_bool, Qlt. apply Z.ltb_lt. Qed.

Lemma Qlt_bool_false_iff (x y : Q) : Qlt_bool x y = false <-> (y <= x)%Q.
Proof. unfold Qlt_bool, Qle. rewrite Z.ltb_ge. reflexivity. Qed.

Lemma Qle_bool_false_iff (x y : Q) : Qle_bool x y = false <-> (y < x)%Q.
Proof.
  rewrite <- Bool.not_true_iff_false, Qle_bool_iff. split.
  - apply Qnot_le_lt.
  - apply Qlt_not_le.
Qed.

#[local] Instance Math_round_proper : Proper (Qeq ==> eq) Math_round.
Proof. intros x y E. unfold Math_round. rewrite E. reflexivity. Qed.

Lemma Math_round_Z (z : Z) : Math_round (inject_Z z) = z.
Proof.
  unfold Math_round.
  pose proof (Qfloor_le (inject_Z z + (1 # 2))) as Hle.
  pose proof (Qlt_floor (inject_Z z + (1 # 2))) as Hlt.
  set (f := Qfloor (inject_Z z + (1 # 2))) in *.
  rewrite inject_Z_plus in Hlt. change (inject_Z 1) with 1%Q in Hlt.
  assert (H1 : (inject_Z f < inject_Z (z + 1))%Q).
  { rewrite inject_Z_plus. change (inject_Z 1) with 1%Q. lra. }
  assert (H2 : (inject_Z z < inject_Z (f + 1))%Q).
  { rewrite inject_Z_plus. change (inject_Z 1) with 1%Q. lra. }
  rewrite <- Zlt_Qlt in H1, H2. lia.
Qed.

Lemma Math_round_mono (x y : Q) : (x <= y)%Q -> Math_round x <= Math_round y.
Proof. intros H. apply Qfloor_resp_le. lra. Qed.

(** A number between two integers rounds to an integer between them. *)
Lemma Math_round_between (lo hi : Z) (x : Q) :
  (inject_Z lo <= x <= inject_Z hi)%Q -> lo <= Math_round x <= hi.
Proof.
  intros [Hl Hh]. split.
  - rewrite <- (Math_round_Z lo). apply Math_round_mono, Hl.
  - rewrite <- (Math_round_Z hi). apply Math_round_mono, Hh.
Qed.

Lemma Math_round_nearest (x : Q) : nearest x (Math_round x).
Proof.
  unfold nearest, Math_round.
  pose proof (Qfloor_le (x + (1 # 2))) as Hle.
  pose proof (Qlt_floor (x + (1 # 2))) as Hlt.
  rewrite inject_Z_plus in Hlt. change (inject_Z 1) with 1%Q in Hlt.
  split; lra.
Qed.

(** The handlers' [(c * brightness) / 255], rounded, is nearest to
    [c * (brightness / 255)]. *)
Lemma scaled_nearest (c : Z) (x bri : Q) :
  (x == inject_Z c)%Q ->
  nearest (inject_Z c * (bri / 255)) (Math_round (x * bri / 255)).
Proof.
  intros Hx.
  assert (E : (inject_Z c * (bri / 255) == x * bri / 255)%Q)
    by (rewrite Hx; field).
  unfold nearest. rewrite E. apply Math_round_nearest.
Qed.

Lemma Math_round_div (n d : Z) :
  0 < d -> Math_round (inject_Z n / inject_Z d) = roundDiv n d.
Proof.
  intros Hd. unfold Math_round, roundDiv.
  rewrite Zdiv_Qdiv. apply Qfloor_comp.
  assert (Hq : ~ (inject_Z d == 0)%Q).
  { intros E. rewrite (Zlt_Qlt 0 d) in Hd.
    change (inject_Z 0) with 0%Q in Hd. lra. }
  rewrite !inject_Z_plus, !inject_Z_mult.
  change (inject_Z 2) with 2%Q.
  field. exact Hq.
Qed.

(** ** The night branch *)

Lemma night_test (t : Q) :
  (t < 6 \/ 18 <= t)%Q -> Qlt_bool t 6 || Qle_bool 18 t = true.
Proof.
  intros [H | H].
  - apply Qlt_bool_iff in H. rewrite H. reflexivity.
  - apply Qle_bool_iff in H. rewrite H. apply orb_true_r.
Qed.

Lemma day_test (t : Q) :
  (6 <= t < 18)%Q -> Qlt_bool t 6 || Qle_bool 18 t = false.
Proof.
  intros [H1 H2].
  apply Qlt_bool_false_iff in H1. apply Qle_bool_false_iff in H2.
  rewrite H1, H2. reflexivity.
Qed.

(** Scaling an integer channel by an integer brightness, as the handlers
    write it, is the data model's rounded scaling. *)
Lemma scaled_channel (c bri : Z) :
  Math_round (inject_Z c * inject_Z bri / 255) = roundDiv (c * bri) 255.
Proof.
  rewrite <- inject_Z_mult. apply (Math_round_div (c * bri) 255). lia.
Qed.

(** The night branch of both handlers on the rationals: the current one
    answers the night colour scaled by the brightness it is given, for an
    integer brightness the data model's scaling; the earlier one answers
    the night colour. *)
Lemma night_branch (Math_sin : Q -> Q) (t q : Q) (n : Z) :
  (t < 6 \/ 18 <= t)%Q ->
  scaledTo nightColor q (computeDaylightColor Math_sin t q)
  /\ computeDaylightColor Math_sin t (inject_Z n) = scaleColor nightColor n
  /\ computeDaylightColorLegacy Math_sin t = nightColor.
Proof.
  intros Ht. unfold computeDaylightColor, computeDaylightColorLegacy.
  rewrite (night_test t Ht). split; [| split].
  - unfold scaledTo, nightColor; cbn [r g b].
    split; [| split]; apply scaled_nearest; reflexivity.
  - unfold scaleColor, nightColor; cbn [r g b].
    change 20%Q with (inject_Z 20). change 60%Q with (inject_Z 60).
    rewrite !scaled_channel. reflexivity.
  - reflexivity.
Qed.

(** [x || 255] on a stored integer. *)
Lemma orDefault255_integer (n : Z) :
  orDefault255 (Val (inject_Z n)) = inject_Z (effectiveBrightness n).
Proof.
  unfold orDefault255, effectiveBrightness, Qeq_bool, inject_Z; cbn [Qnum Qden].
  rewrite Z.mul_1_r. destruct n; reflexivity.
Qed.

(** ** Noon *)

#[local] Instance bhaskaraSin_proper : Proper (Qeq ==> Qeq) bhaskaraSin.
Proof. intros x y E. unfold bhaskaraSin. rewrite E. reflexivity. Qed.

Lemma bhaskaraSin_half_pi : (bhaskaraSin (Math_PI / 2) == 1)%Q.
Proof. vm_compute. reflexivity. Qed.

Lemma scaleColor_noon (bri : Z) : scaleColor noonColor bri = mkRgb bri bri bri.
Proof.
  assert (H : roundDiv (255 * bri) 255 = bri).
  { unfold roundDiv.
    replace (2 * (255 * bri) + 255) with (255 + bri * (2 * 255)) by ring.
    rewrite Z.div_add by lia. reflexivity. }
  unfold scaleColor, noonColor; cbn [r g b]. rewrite H. reflexivity.
Qed.

Section Noon.

Variable Math_sin : Q -> Q.
Hypothesis Math_sin_proper : Proper (Qeq ==> Qeq) Math_sin.
Hypothesis Math_sin_half_pi : (Math_sin (Math_PI / 2) == 1)%Q.

Lemma intensity_noon (t : Q) : (t == 12)%Q -> (intensity Math_sin t == 1)%Q.
Proof.
  intros Ht. unfold intensity. rewrite <- Math_sin_half_pi.
  apply Math_sin_proper. rewrite Ht. reflexivity.
Qed.

(** C3.  At t = 12 the sine is taken at a quarter turn, where it is 1;
    both interpolation branches then give the noon colour, and the handler
    answers (255, 255, 255) scaled by brightness/255 for every brightness
    [q]; for an integer brightness [n] that is [n] itself on every
    channel. *)
Theorem noon_color (t q : Q) (n : Z) :
  (t == 12)%Q ->
  (intensity Math_sin t == 1)%Q
  /\ channelsAre (sunriseToNoon (intensity Math_sin t)) noonColor
  /\ channelsAre (noonToSunset (intensity Math_sin t)) noonColor
  /\ scaledTo noonColor q (computeDaylightColor Math_sin t q)
  /\ computeDaylightColor Math_sin t (inject_Z n) = scaleColor noonColor n
  /\ scaleColor noonColor n = mkRgb n n n.
Proof.
  intros Ht. pose proof (intensity_noon t Ht) as Hi.
  assert (Hup : channelsAre (sunriseToNoon (intensity Math_sin t)) noonColor).
  { unfold channelsAre, sunriseToNoon; cbn. rewrite Hi. repeat split; reflexivity. }
  assert (Hdown : channelsAre (noonToSunset (intensity Math_sin t)) noonColor).
  { unfold channelsAre, noonToSunset; cbn. rewrite Hi. repeat split; reflexivity. }
  split; [exact Hi |]. split; [exact Hup |]. split; [exact Hdown |].
  assert (Hday : Qlt_bool t 6 || Qle_bool 18 t = false)
    by (apply day_test; rewrite Ht; split; [discriminate | reflexivity]).
  assert (H12 : Qlt_bool t 12 = false)
    by (apply Qlt_bool_false_iff; rewrite Ht; apply Qle_refl).
  unfold computeDaylightColor, daylightChannels. rewrite Hday, H12.
  destruct Hdown as (Hr & Hg & Hb).
  destruct (noonToSunset (intensity Math_sin t)) as [[cr cg] cb].
  cbn [fst snd] in Hr, Hg, Hb.
  split; [| split; [| apply scaleColor_noon]].
  - unfold scaledTo; cbn [r g b].
    split; [| split]; apply scaled_nearest; assumption.
  - rewrite Hr, Hg, Hb, !scaled_channel. reflexivity.
Qed.

End Noon.

Lemma noon_color_witness :
  (fractionalHour 12 0 == 12)%Q
  /\ computeDaylightColor bhaskaraSin (fractionalHour 12 0) (inject_Z 128)
     = mkRgb 128 128 128.
Proof.
  assert (H : (fractionalHour 12 0 == 12)%Q) by reflexivity.
  split; [exact H |].
  destruct (noon_color bhaskaraSin bhaskaraSin_proper bhaskaraSin_half_pi
              (fractionalHour 12 0) 128 128 H) as (_ & _ & _ & _ & Hc & _).
  exact Hc.
Defined.

(** ** The timer scan *)

Lemma rem_1440_nonneg (a : Z) : 0 <= a -> 0 <= Z.rem a 1440 < 1440.
Proof. intros H. apply Z.rem_bound_pos; lia. Qed.

Lemma elapsed_nonneg (nowMins start : Z) :
  validMinutes nowMins -> validMinutes start ->
  0 <= Z.rem (nowMins - start + 1440) 1440 < 1440.
Proof. unfold validMinutes. intros Hn Hs. apply rem_1440_nonneg. lia. Qed.

Lemma zero_duration (x y : Z) : y = x -> Z.rem (y - x + 1440) 1440 = 0.
Proof. intros ->. replace (x - x + 1440) with 1440 by ring. reflexivity. Qed.

(** C4 (amended).  A window whose fade-in start is its peak start has
    fade-in duration 0.  When that boundary and the current time are
    minutes of the day (0..1439) the elapsed time is not negative, so the
    fade-in test fails, its quotient is not computed, and the loop body is
    its peak and fade-out tests. *)
Theorem zero_fade_in_skipped (nowMins : Z) (bri : Q) (w : Bounds) :
  validMinutes nowMins ->
  validMinutes (fadeInMins w) ->
  peakStartMins w = fadeInMins w ->
  fadeInDuration w = 0
  /\ 0 <= fadeInElapsed nowMins w
  /\ (fadeInElapsed nowMins w <? fadeInDuration w) = false
  /\ timerBody nowMins bri w = peakBlock nowMins bri w.
Proof.
  intros Hn Hf Heq.
  assert (Hd : fadeInDuration w = 0) by (apply zero_duration, Heq).
  assert (He : 0 <= fadeInElapsed nowMins w)
    by (apply (elapsed_nonneg nowMins (fadeInMins w)); assumption).
  assert (Ht : (fadeInElapsed nowMins w <? fadeInDuration w) = false)
    by (apply Z.ltb_ge; lia).
  repeat split; try assumption.
  unfold timerBody. rewrite Ht. reflexivity.
Qed.

(** C10 (amended).  A window whose peak end is its fade-out end has
    fade-out duration 0.  When that boundary and the current time are
    minutes of the day (0..1439) the elapsed time is not negative, so the
    fade-out test fails, its quotient is not computed, and that branch
    yields no match. *)
Theorem zero_fade_out_skipped (nowMins : Z) (bri : Q) (w : Bounds) :
  validMinutes nowMins ->
  validMinutes (peakEndMins w) ->
  fadeOutMins w = peakEndMins w ->
  fadeOutDuration w = 0
  /\ 0 <= fadeOutElapsed nowMins w
  /\ (fadeOutElapsed nowMins w <? fadeOutDuration w) = false
  /\ fadeOutBlock nowMins bri w = None.
Proof.
  intros Hn Hf Heq.
  assert (Hd : fadeOutDuration w = 0) by (apply zero_duration, Heq).
  assert (He : 0 <= fadeOutElapsed nowMins w)
    by (apply (elapsed_nonneg nowMins (peakEndMins w)); assumption).
  assert (Ht : (fadeOutElapsed nowMins w <? fadeOutDuration w) = false)
    by (apply Z.ltb_ge; lia).
  repeat split; try assumption.
  unfold fadeOutBlock. rewrite Ht. reflexivity.
Qed.

Lemma zero_fade_in_skipped_witness :
  readTimer instantTimer = Some instantBounds
  /\ timerBody 420 255 instantBounds = Some (Colour (mkRgb 255 153 0))
  /\ timerBody 419 255 instantBounds = None.
Proof.
  split; [reflexivity |].
  assert (V420 : validMinutes 420) by (unfold validMinutes; lia).
  assert (V419 : validMinutes 419) by (unfold validMinutes; lia).
  destruct (zero_fade_in_skipped 420 255 instantBounds V420 V420 eq_refl)
    as (_ & _ & _ & H420).
  destruct (zero_fade_in_skipped 419 255 instantBounds V419 V420 eq_refl)
    as (_ & _ & _ & H419).
  split.
  - rewrite H420. reflexivity.
  - rewrite H419. reflexivity.
Defined.

Lemma zero_fade_out_skipped_witness :
  fadeOutBlock 1140 255 instantBounds = None
  /\ timerBody 1140 255 instantBounds = None.
Proof.
  assert (V : validMinutes 1140) by (unfold validMinutes; lia).
  destruct (zero_fade_out_skipped 1140 255 instantBounds V V eq_refl)
    as (_ & _ & _ & H).
  split; [exact H | reflexivity].
Defined.

(** C4 as worded, for every window and every current time, fails.  The
    handler stores boundaries as they are sent and does not check that
    they are times of day.  A window stored with fade-in start and peak
    start "99:00" is read as minute 5940; at 00:00 its elapsed time is
    -180, the fade-in test passes with duration 0, the quotient is formed
    with a zero divisor and the handler sends channels that are not
    finite, on the rationals and on binary64 alike, where the peak test
    alone would have answered a colour. *)
Lemma stray_boundary_divides_by_zero :
  peakStart strayTimer = fadeIn strayTimer
  /\ readTimer strayTimer = Some strayBounds
  /\ fadeInDuration strayBounds = 0
  /\ fadeInElapsed 0 strayBounds = -180
  /\ (fadeInElapsed 0 strayBounds <? fadeInDuration strayBounds) = true
  /\ timerBody 0 255 strayBounds = Some NonFinite
  /\ timerBody 0 255 strayBounds <> peakBlock 0 255 strayBounds
  /\ lightTimerColor (Some "dim@example.org"%string)
       (Some [userWith Missing [strayTimer]]) 0 0 = Some JsonNonFinite
  /\ Binary64.timerBody64 0 255 strayBounds = Some None.
Proof.
  split; [reflexivity |]. split; [reflexivity |]. split; [reflexivity |].
  split; [reflexivity |]. split; [reflexivity |]. split; [reflexivity |].
  split; [vm_compute; discriminate |].
  split; vm_compute; reflexivity.
Qed.

(** C10 as worded fails in the same way.  A window stored with peak end
    and fade-out end "99:00" has fade-out duration 0; at 00:00 it is in
    neither its fade-in nor its peak, its fade-out elapsed time is -180,
    the fade-out test passes, the quotient is formed with a zero divisor
    and the handler sends channels that are not finite. *)
Lemma stray_fade_out_divides_by_zero :
  fadeOut strayOutTimer = peakEnd strayOutTimer
  /\ readTimer strayOutTimer = Some strayOutBounds
  /\ fadeOutDuration strayOutBounds = 0
  /\ fadeOutElapsed 0 strayOutBounds = -180
  /\ (fadeOutElapsed 0 strayOutBounds <? fadeOutDuration strayOutBounds) = true
  /\ fadeOutBlock 0 255 strayOutBounds = Some NonFinite
  /\ timerBody 0 255 strayOutBounds = Some NonFinite
  /\ lightTimerColor (Some "dim@example.org"%string)
       (Some [userWith Missing [strayOutTimer]]) 0 0 = Some JsonNonFinite
  /\ Binary64.timerBody64 0 255 strayOutBounds = Some None.
Proof.
  split; [reflexivity |]. split; [reflexivity |]. split; [reflexivity |].
  split; [reflexivity |]. split; [reflexivity |]. split; [reflexivity |].
  split; [reflexivity |]. split; vm_compute; reflexivity.
Qed.

(** The peak test, as a proposition. *)
Lemma inPeak_iff (nowMins : Z) (w : Bounds) :
  inPeak nowMins w = true <->
  (peakStartMins w <= peakEndMins w
     /\ peakStartMins w <= nowMins < peakEndMins w)
  \/ (peakStartMins w > peakEndMins w
        /\ (nowMins >= peakStartMins w \/ nowMins < peakEndMins w)).
Proof.
  unfold inPeak.
  rewrite orb_true_iff, !andb_true_iff, orb_true_iff,
    !Z.leb_le, !Z.ltb_lt.
  lia.
Qed.

(** C5.  A window read from peakStart "22:00" and peakEnd "02:00" has its
    peak test true at 23:00 (1380) and at 01:00 (60) and false at 12:00
    (720); the test is the stated disjunction of the plain and the
    wrapped interval. *)
Theorem midnight_wrap_peak (fi fo col : string) (w : Bounds) :
  readTimer (mkTimerWindow fi "22:00" "02:00" fo col) = Some w ->
  (peakStartMins w = 1320 /\ peakEndMins w = 120)
  /\ inPeak (minutesSinceMidnight 23 0) w = true
  /\ inPeak (minutesSinceMidnight 1 0) w = true
  /\ inPeak (minutesSinceMidnight 12 0) w = false
  /\ (forall nowMins,
        inPeak nowMins w = true <->
        (peakStartMins w <= peakEndMins w
           /\ peakStartMins w <= nowMins < peakEndMins w)
        \/ (peakStartMins w > peakEndMins w
              /\ (nowMins >= peakStartMins w \/ nowMins < peakEndMins w))).
Proof.
  unfold readTimer; cbn [fadeIn peakStart peakEnd fadeOut color].
  destruct (timeToMinutes fi) as [a |]; [| discriminate].
  change (timeToMinutes "22:00") with (Some 1320).
  change (timeToMinutes "02:00") with (Some 120).
  cbn [bind].
  destruct (timeToMinutes fo) as [c |]; [| discriminate].
  cbn [bind].
  destruct (hexToRgb col) as [k |]; [| discriminate].
  cbn [bind]. intros H. injection H as <-.
  repeat split; try reflexivity; apply inPeak_iff.
Qed.

Lemma midnight_wrap_peak_witness :
  readTimer nightTimer = Some (mkBounds 1260 1320 120 180 (mkRgb 0 0 255))
  /\ inPeak 1380 (mkBounds 1260 1320 120 180 (mkRgb 0 0 255)) = true
  /\ timerLoop 1380 255 [nightTimer] = Some (JsonRgb (mkRgb 0 0 255))
  /\ timerLoop 60 255 [nightTimer] = Some (JsonRgb (mkRgb 0 0 255))
  /\ timerLoop 720 255 [nightTimer] = Some JsonColorNull.
Proof.
  assert (H : readTimer nightTimer
              = Some (mkBounds 1260 1320 120 180 (mkRgb 0 0 255)))
    by reflexivity.
  split; [exact H |].
  split; [exact (proj1 (proj2 (midnight_wrap_peak _ _ _ _ H))) |].
  repeat split; reflexivity.
Defined.

(** C6.  With the timer switched off, or with the window list missing,
    null or empty, the engine answers [{color: null}] whatever the time
    and the brightness. *)
Theorem disabled_or_empty_is_null (nowMins : Z) (bri : Q) (cfg : Timers) :
  truthy (lightTimerEnabled cfg) = false
  \/ lightTimers cfg = Missing
  \/ lightTimers cfg = IsNull
  \/ lightTimers cfg = Val [] ->
  computeTimerColor nowMins cfg bri = Some JsonColorNull.
Proof.
  unfold computeTimerColor.
  intros [H | [H | [H | H]]]; rewrite H;
    destruct (truthy (lightTimerEnabled cfg)); reflexivity.
Qed.

Lemma disabled_or_empty_is_null_witness :
  computeTimerColor 720 (mkTimers (Val false) (Val [dayTimer])) 255
  = Some JsonColorNull
  /\ computeTimerColor 720 (mkTimers (Val true) (Val [])) 255
     = Some JsonColorNull
  /\ computeTimerColor 720 (mkTimers (Val true) Missing) 255
     = Some JsonColorNull.
Proof.
  split; [| split].
  - apply disabled_or_empty_is_null. left. reflexivity.
  - apply disabled_or_empty_is_null. right. right. right. reflexivity.
  - apply disabled_or_empty_is_null. right. left. reflexivity.
Defined.

(** C7.  The window 06:00 / 07:00 / 19:00 / 20:00 with colour #FF9900,
    that is (255, 153, 0), at brightness 255: half way through the fade-in
    (06:30) the answer is (128, 77, 0); at 12:00 it is the full colour; at
    19:30, half way through the fade-out, it is the colour at progress
    1/2, again (128, 77, 0). *)
Theorem day_timer_round_trip :
  hexToRgb (color dayTimer) = Some (mkRgb 255 153 0)
  /\ computeTimerColor (minutesSinceMidnight 6 30) (enabledTimers [dayTimer]) 255
     = Some (JsonRgb (mkRgb 128 77 0))
  /\ computeTimerColor (minutesSinceMidnight 12 0) (enabledTimers [dayTimer]) 255
     = Some (JsonRgb (mkRgb 255 153 0))
  /\ computeTimerColor (minutesSinceMidnight 19 30) (enabledTimers [dayTimer]) 255
     = Some (JsonRgb (fadedColor (mkRgb 255 153 0) (1 # 2) 255))
  /\ fadedColor (mkRgb 255 153 0) (1 # 2) 255 = mkRgb 128 77 0.
Proof. repeat split; vm_compute; reflexivity. Qed.

(** ** First match wins *)

(** Case analysis on the next test of the loop body. *)
Ltac next_test :=
  match goal with
  | |- context [if ?guard then _ else _] => destruct guard
  end.

Lemma timerBody_active (nowMins : Z) (bri : Q) (w : Bounds) :
  active nowMins w = true -> exists a, timerBody nowMins bri w = Some a.
Proof.
  unfold active, timerBody, peakBlock, fadeOutBlock. intros H.
  repeat next_test; eauto; discriminate.
Qed.

Lemma timerBody_inactive (nowMins : Z) (bri : Q) (w : Bounds) :
  active nowMins w = false -> timerBody nowMins bri w = None.
Proof.
  unfold active, timerBody, peakBlock, fadeOutBlock. intros H.
  repeat next_test; (reflexivity || discriminate).
Qed.

(** The scan passes over a prefix of windows that do not contain the
    current time. *)
Lemma timerLoop_skip (nowMins : Z) (bri : Q) (pre rest : list TimerWindow) :
  Forall (fun t => exists w, readTimer t = Some w /\ active nowMins w = false)
         pre ->
  timerLoop nowMins bri (pre ++ rest) = timerLoop nowMins bri rest.
Proof.
  induction 1 as [| t pre (w & Hr & Ha) _ IH]; [reflexivity |].
  cbn [app timerLoop]. rewrite Hr. cbn [bind].
  rewrite (timerBody_inactive _ _ _ Ha). exact IH.
Qed.

(** C2.  In stored order, the first window whose fade-in, peak or
    fade-out phase contains the current time decides the answer: the
    answer is that window's colour, whatever windows follow it, and so the
    same as if it were the only window. *)
Theorem first_match_wins (nowMins : Z) (bri : Q)
    (pre post : list TimerWindow) (timer : TimerWindow) (w : Bounds) :
  Forall (fun t => exists w', readTimer t = Some w' /\ active nowMins w' = false)
         pre ->
  readTimer timer = Some w ->
  active nowMins w = true ->
  exists a,
    timerBody nowMins bri w = Some a
    /\ computeTimerColor nowMins (enabledTimers (pre ++ timer :: post)) bri
       = Some (respond a)
    /\ computeTimerColor nowMins (enabledTimers [timer]) bri
       = Some (respond a).
Proof.
  intros Hpre Hr Ha.
  destruct (timerBody_active nowMins bri w Ha) as [c Hc].
  exists c. split; [exact Hc |].
  unfold computeTimerColor, enabledTimers; cbn [lightTimerEnabled lightTimers
    truthy isArray negb orb].
  rewrite (timerLoop_skip _ _ _ _ Hpre).
  cbn [timerLoop]. rewrite Hr. cbn [bind]. rewrite Hc. split; reflexivity.
Qed.

Lemma first_match_wins_witness :
  computeTimerColor 720 (enabledTimers [nightTimer; dayTimer; instantTimer]) 128
  = Some (JsonRgb (mkRgb 128 77 0))
  /\ computeTimerColor 720 (enabledTimers [dayTimer]) 128
     = Some (JsonRgb (mkRgb 128 77 0)).
Proof.
  assert (Hpre : Forall
            (fun t => exists w', readTimer t = Some w' /\ active 720 w' = false)
            [nightTimer]).
  { constructor; [| constructor].
    exists (mkBounds 1260 1320 120 180 (mkRgb 0 0 255)).
    split; reflexivity. }
  destruct (first_match_wins 720 128 [nightTimer] [instantTimer] dayTimer
              (mkBounds 360 420 1140 1200 (mkRgb 255 153 0))
              Hpre eq_refl eq_refl) as (c & Hc & H1 & H2).
  assert (E : c = Colour (mkRgb 128 77 0)).
  { vm_compute in Hc. injection Hc as <-. reflexivity. }
  rewrite E in H1, H2. split; [exact H1 | exact H2].
Defined.

(** ** Channels stay in 0..255 *)

Lemma Qsquare_nonneg (a : Q) : (0 <= a * a)%Q.
Proof. nra. Qed.

Lemma bhaskara_bounds (p x : Q) :
  (0 < p)%Q -> (0 <= x <= p)%Q ->
  (0 <= 16 * x * (p - x) / (5 * p * p - 4 * x * (p - x)) <= 1)%Q.
Proof.
  intros Hp [H0 H1].
  assert (Hy : (0 <= x * (p - x))%Q) by (apply Qmult_le_0_compat; lra).
  pose proof (Qsquare_nonneg (p - 2 * x)) as Hs.
  assert (Hpp : (0 < p * p)%Q) by (apply Qmult_lt_0_compat; exact Hp).
  assert (Hden : (0 < 5 * p * p - 4 * x * (p - x))%Q).
  { setoid_replace (5 * p * p - 4 * x * (p - x))%Q
      with (4 * (p * p) + (p - 2 * x) * (p - 2 * x))%Q by ring.
    lra. }
  split.
  - apply Qle_shift_div_l; [exact Hden |].
    setoid_replace (16 * x * (p - x))%Q with (16 * (x * (p - x)))%Q by ring.
    lra.
  - apply Qle_shift_div_r; [exact Hden |].
    apply Qle_minus_iff.
    setoid_replace (1 * (5 * p * p - 4 * x * (p - x)) + - (16 * x * (p - x)))%Q
      with (5 * ((p - 2 * x) * (p - 2 * x)))%Q by ring.
    lra.
Qed.

Lemma bhaskaraSin_range (x : Q) :
  (0 <= x <= Math_PI)%Q -> (0 <= bhaskaraSin x <= 1)%Q.
Proof. apply bhaskara_bounds. reflexivity. Qed.

Lemma land_255_range (x : Z) : 0 <= Z.land x 255 <= 255.
Proof.
  change 255 with (Z.ones 8). rewrite Z.land_ones by lia.
  pose proof (Z.mod_pos_bound x (2 ^ 8) ltac:(lia)) as H.
  change (2 ^ 8) with 256 in *. change (Z.ones 8) with 255. lia.
Qed.

Lemma hexToRgb_inRange (s : string) (c : rgb) :
  hexToRgb s = Some c -> inRange c.
Proof.
  unfold hexToRgb. destruct (parseInt16 _) as [v |]; [| discriminate].
  cbn [bind]. intros H. injection H as <-.
  unfold inRange; cbn [r g b]. repeat split; apply land_255_range.
Qed.

Lemma decDigit_range (c : ascii) (d : Z) : decDigit c = Some d -> 0 <= d <= 9.
Proof.
  unfold decDigit.
  destruct (_ && _) eqn:E; [| discriminate].
  apply andb_true_iff in E. destruct E as [E1 E2].
  apply Z.leb_le in E1, E2. intros H. injection H as <-. lia.
Qed.

Lemma decValue_nonneg (s : string) (acc v : Z) :
  0 <= acc -> decValue acc s = Some v -> 0 <= v.
Proof.
  revert acc. induction s as [| c s IH]; intros acc Ha; cbn [decValue].
  - intros H. injection H as <-. exact Ha.
  - destruct (decDigit c) as [d |] eqn:Ed; [| discriminate]. cbn [bind].
    apply IH. pose proof (decDigit_range c d Ed). lia.
Qed.

Lemma Number_nonneg (s : string) (v : Z) : Number s = Some v -> 0 <= v.
Proof.
  unfold Number. destruct (_ <=? _)%nat; [| discriminate].
  apply decValue_nonneg. lia.
Qed.

Lemma validClock_minutes (s : string) :
  validClock s = true ->
  exists m, timeToMinutes s = Some m /\ validMinutes m.
Proof.
  unfold validClock, timeToMinutes.
  destruct (split ":" s) as [| hs [| ms [| x l]]]; try discriminate.
  destruct (Number hs) as [h |] eqn:Eh; [| discriminate].
  destruct (Number ms) as [m |] eqn:Em; [| discriminate].
  intros H. apply andb_true_iff in H. destruct H as [H1 H2].
  apply Z.ltb_lt in H1, H2.
  pose proof (Number_nonneg hs h Eh). pose proof (Number_nonneg ms m Em).
  exists (h * 60 + m). split; [reflexivity |]. unfold validMinutes. lia.
Qed.

Lemma isHexDigit_not (c x : ascii) :
  isHexDigit x = false -> isHexDigit c = true -> Ascii.eqb c x = false.
Proof.
  intros Hx Hc. destruct (Ascii.eqb_spec c x) as [-> |]; [| reflexivity].
  congruence.
Qed.

Lemma removeFirst_allHex (s : string) :
  allHex s = true -> removeFirst "#" s = s.
Proof.
  induction s as [| c s IH]; [reflexivity |]. cbn [allHex removeFirst].
  intros H. apply andb_true_iff in H. destruct H as [Hc Hs].
  rewrite (isHexDigit_not c "#" eq_refl Hc), (IH Hs). reflexivity.
Qed.

Lemma hexPrefix_allHex (s : string) (acc : Z) (n : nat) :
  allHex s = true ->
  exists v, hexPrefix acc n s = (v, (n + String.length s)%nat).
Proof.
  revert acc n. induction s as [| c s IH]; intros acc n; cbn [allHex hexPrefix].
  - intros _. exists acc. rewrite Nat.add_0_r. reflexivity.
  - intros H. apply andb_true_iff in H. destruct H as [Hc Hs].
    unfold isHexDigit in Hc. destruct (hexDigit c) as [d |]; [| discriminate].
    destruct (IH (acc * 16 + d) (S n) Hs) as [v Hv].
    exists v. rewrite Hv. cbn [String.length]. f_equal. lia.
Qed.

Lemma parseInt16_allHex (s : string) :
  allHex s = true -> String.length s = 6%nat ->
  exists v, parseInt16 s = Some v.
Proof.
  intros Ha Hl. unfold parseInt16.
  assert (Hbody :
    match s with
    | String c0 (String c1 rest) =>
        if Ascii.eqb c0 "0" && (Ascii.eqb c1 "x" || Ascii.eqb c1 "X")
        then rest else s
    | _ => s
    end = s).
  { destruct s as [| c0 [| c1 rest]]; try reflexivity.
    cbn [allHex] in Ha. apply andb_true_iff in Ha. destruct Ha as [_ Ha].
    apply andb_true_iff in Ha. destruct Ha as [H1 _].
    rewrite (isHexDigit_not c1 "x" eq_refl H1),
      (isHexDigit_not c1 "X" eq_refl H1), andb_false_r. reflexivity. }
  rewrite Hbody.
  destruct (hexPrefix_allHex s 0 0 Ha) as [v Hv]. rewrite Hv, Hl.
  exists v. reflexivity.
Qed.

Lemma validHex_parses (s : string) :
  validHex s = true -> exists c, hexToRgb s = Some c /\ inRange c.
Proof.
  unfold validHex. intros H. apply andb_true_iff in H. destruct H as [Hl Ha].
  apply Nat.eqb_eq in Hl.
  assert (Hp : exists v, parseInt16 (removeFirst "#" s) = Some v).
  { destruct s as [| c rest].
    - discriminate.
    - destruct (Ascii.eqb c "#") eqn:Ec.
      + cbn [removeFirst]. rewrite Ec. apply parseInt16_allHex; assumption.
      + rewrite (removeFirst_allHex _ Ha). apply parseInt16_allHex; assumption. }
  destruct Hp as [v Hv].
  assert (Hc : hexToRgb s
               = Some (mkRgb (Z.land (Z.shiftr (ToInt32 v) 16) 255)
                             (Z.land (Z.shiftr (ToInt32 v) 8) 255)
                             (Z.land (ToInt32 v) 255))).
  { unfold hexToRgb. rewrite Hv. reflexivity. }
  eexists. split; [exact Hc |]. exact (hexToRgb_inRange _ _ Hc).
Qed.

Lemma wellFormedTimer_reads (t : TimerWindow) :
  wellFormedTimer t = true ->
  exists w, readTimer t = Some w /\ validBounds w.
Proof.
  unfold wellFormedTimer. rewrite !andb_true_iff.
  intros [[[[H1 H2] H3] H4] H5].
  destruct (validClock_minutes _ H1) as (fi & E1 & V1).
  destruct (validClock_minutes _ H2) as (ps & E2 & V2).
  destruct (validClock_minutes _ H3) as (pe & E3 & V3).
  destruct (validClock_minutes _ H4) as (fo & E4 & V4).
  destruct (validHex_parses _ H5) as (c & E5 & V5).
  exists (mkBounds fi ps pe fo c). split.
  - unfold readTimer. rewrite E1, E2, E3, E4, E5. reflexivity.
  - unfold validBounds; cbn. auto.
Qed.

Lemma inject_Z_between (lo hi z : Z) :
  lo <= z <= hi -> (inject_Z lo <= inject_Z z <= inject_Z hi)%Q.
Proof. intros [H1 H2]. rewrite <- !Zle_Qle. split; assumption. Qed.

Lemma scaled_between (x bri : Q) :
  (0 <= x <= 255)%Q -> (0 <= bri <= 255)%Q ->
  0 <= Math_round (x * bri / 255) <= 255.
Proof.
  intros Hx Hb. apply (Math_round_between 0 255).
  change (inject_Z 0) with 0%Q. change (inject_Z 255) with 255%Q.
  split.
  - apply Qle_shift_div_l; [reflexivity |]. nra.
  - apply Qle_shift_div_r; [reflexivity |]. nra.
Qed.

Lemma faded_channel_between (c : Z) (p bri : Q) :
  0 <= c <= 255 -> (0 <= p <= 1)%Q -> (0 <= bri <= 255)%Q ->
  0 <= Math_round (inject_Z c * p * bri / 255) <= 255.
Proof.
  intros Hc Hp Hb. apply scaled_between; [| exact Hb].
  apply (inject_Z_between 0 255) in Hc.
  change (inject_Z 0) with 0%Q in Hc. change (inject_Z 255) with 255%Q in Hc.
  nra.
Qed.

Lemma fadedColor_inRange (c : rgb) (p bri : Q) :
  inRange c -> (0 <= p <= 1)%Q -> (0 <= bri <= 255)%Q ->
  inRange (fadedColor c p bri).
Proof.
  intros (Hr & Hg & Hb) Hp Hbri. unfold inRange, fadedColor; cbn [r g b].
  repeat split; apply faded_channel_between; assumption.
Qed.

Lemma peakColor_faded (c : rgb) (bri : Q) :
  peakColor c bri = fadedColor c 1 bri.
Proof.
  unfold peakColor, fadedColor. f_equal; apply Math_round_proper; field.
Qed.

Lemma progress_in (e d : Z) :
  0 <= e < d -> (0 <= inject_Z e / inject_Z d <= 1)%Q.
Proof.
  intros [He Hd].
  assert (Hd' : (0 < inject_Z d)%Q)
    by (change 0%Q with (inject_Z 0); rewrite <- Zlt_Qlt; lia).
  assert (He' : (0 <= inject_Z e)%Q)
    by (change 0%Q with (inject_Z 0); rewrite <- Zle_Qle; lia).
  assert (Hed : (inject_Z e <= inject_Z d)%Q) by (rewrite <- Zle_Qle; lia).
  split.
  - apply Qle_shift_div_l; [exact Hd' | lra].
  - apply Qle_shift_div_r; [exact Hd' | lra].
Qed.

Lemma quotient_some (e d : Z) :
  0 <= e < d -> quotient e d = Some (inject_Z e / inject_Z d)%Q.
Proof.
  intros H. unfold quotient.
  destruct (Z.eqb_spec d 0) as [-> |]; [lia | reflexivity].
Qed.

(** Every answer of the loop body is the window's colour at a progress
    between 0 and 1; no quotient has a zero divisor. *)
Lemma timerBody_progress (nowMins : Z) (bri : Q) (w : Bounds) (a : answer) :
  validMinutes nowMins -> validBounds w ->
  timerBody nowMins bri w = Some a ->
  exists p, (0 <= p <= 1)%Q /\ a = Colour (fadedColor (colorRgb w) p bri).
Proof.
  intros Hn (V1 & V2 & V3 & V4 & _).
  unfold timerBody, peakBlock, fadeOutBlock.
  destruct (fadeInElapsed nowMins w <? fadeInDuration w) eqn:E1.
  - apply Z.ltb_lt in E1.
    pose proof (elapsed_nonneg nowMins (fadeInMins w) Hn V1) as He.
    fold (fadeInElapsed nowMins w) in He.
    rewrite quotient_some by lia. cbn [fadedAnswer].
    intros H. injection H as <-. eexists. split; [| reflexivity].
    apply progress_in. lia.
  - destruct (inPeak nowMins w).
    + intros H. injection H as <-. exists 1%Q. split; [lra |].
      f_equal. apply peakColor_faded.
    + destruct (fadeOutElapsed nowMins w <? fadeOutDuration w) eqn:E3;
        [| discriminate].
      apply Z.ltb_lt in E3.
      pose proof (elapsed_nonneg nowMins (peakEndMins w) Hn V3) as He.
      fold (fadeOutElapsed nowMins w) in He.
      rewrite quotient_some by lia. cbn [option_map fadedAnswer].
      intros H. injection H as <-. eexists. split; [| reflexivity].
      assert (Hp : (0 <= inject_Z (fadeOutElapsed nowMins w)
                         / inject_Z (fadeOutDuration w) <= 1)%Q)
        by (apply progress_in; lia).
      lra.
Qed.

Lemma timerLoop_inRange (nowMins : Z) (bri : Q) (l : list TimerWindow) :
  validMinutes nowMins -> (0 <= bri <= 255)%Q ->
  forallb wellFormedTimer l = true ->
  exists resp,
    timerLoop nowMins bri l = Some resp
    /\ (resp = JsonColorNull \/ exists c, resp = JsonRgb c /\ inRange c).
Proof.
  intros Hn Hb. induction l as [| t l IH]; cbn [forallb timerLoop].
  - intros _. exists JsonColorNull. auto.
  - intros H. apply andb_true_iff in H. destruct H as [Ht Hl].
    destruct (wellFormedTimer_reads t Ht) as (w & Hr & Hv).
    rewrite Hr. cbn [bind].
    destruct (timerBody nowMins bri w) as [a |] eqn:Eb; [| exact (IH Hl)].
    destruct (timerBody_progress _ _ _ _ Hn Hv Eb) as (p & Hp & ->).
    eexists. split; [reflexivity |]. right. eexists.
    split; [reflexivity |].
    apply fadedColor_inRange; [apply Hv | exact Hp | exact Hb].
Qed.

Lemma angle_between (t : Q) :
  (6 <= t < 18)%Q ->
  (0 <= (t - 6) / 12 * 180 * Math_PI / 180 <= Math_PI)%Q.
Proof.
  intros [H1 H2].
  assert (Hpi : (0 < Math_PI)%Q) by reflexivity.
  setoid_replace ((t - 6) / 12 * 180 * Math_PI / 180)%Q
    with ((t - 6) * Math_PI * (1 # 12))%Q by field.
  assert (Ha : (0 <= (t - 6) * Math_PI)%Q)
    by (apply Qmult_le_0_compat; lra).
  assert (Hb : ((t - 6) * Math_PI <= 12 * Math_PI)%Q)
    by (apply Qmult_le_compat_r; lra).
  lra.
Qed.

Section DaylightRange.

Variable Math_sin : Q -> Q.
Hypothesis Math_sin_range :
  forall x, (0 <= x <= Math_PI)%Q -> (0 <= Math_sin x <= 1)%Q.

Lemma intensity_between (t : Q) :
  (6 <= t < 18)%Q -> (0 <= intensity Math_sin t <= 1)%Q.
Proof. intros Ht. apply Math_sin_range, angle_between, Ht. Qed.

Lemma daylightChannels_between (t : Q) :
  (6 <= t < 18)%Q ->
  channelsBetween (if Qlt_bool t 12 then sunriseColor else sunsetColor)
                  noonColor (daylightChannels Math_sin t).
Proof.
  intros Ht. pose proof (intensity_between t Ht) as Hi.
  unfold daylightChannels, channelsBetween.
  destruct (Qlt_bool t 12); cbn; unfold inject_Z; repeat split; lra.
Qed.

Lemma daylightChannels_255 (t : Q) :
  (6 <= t < 18)%Q ->
  channelsBetween (mkRgb 0 0 0) (mkRgb 255 255 255) (daylightChannels Math_sin t).
Proof.
  intros Ht. pose proof (daylightChannels_between t Ht) as H.
  revert H. unfold channelsBetween.
  destruct (Qlt_bool t 12); cbn; unfold inject_Z;
    intros (Hr & Hg & Hb); repeat split; lra.
Qed.

Lemma day_or_night (t : Q) :
  Qlt_bool t 6 || Qle_bool 18 t = false -> (6 <= t < 18)%Q.
Proof.
  intros H. apply orb_false_iff in H. destruct H as [H1 H2].
  apply Qlt_bool_false_iff in H1. apply Qle_bool_false_iff in H2.
  split; assumption.
Qed.

Lemma computeDaylightColor_inRange (t bri : Q) :
  (0 <= bri <= 255)%Q -> inRange (computeDaylightColor Math_sin t bri).
Proof.
  intros Hb. unfold computeDaylightColor.
  destruct (Qlt_bool t 6 || Qle_bool 18 t) eqn:E.
  - unfold inRange; cbn [r g b].
    repeat split; apply scaled_between; (exact Hb || (split; discriminate)).
  - pose proof (daylightChannels_255 t (day_or_night t E)) as (Hr & Hg & Hbl).
    destruct (daylightChannels Math_sin t) as [[cr cg] cb].
    cbn in Hr, Hg, Hbl. unfold inRange; cbn [r g b].
    repeat split; apply scaled_between; assumption.
Qed.

Lemma computeDaylightColorLegacy_inRange (t : Q) :
  inRange (computeDaylightColorLegacy Math_sin t).
Proof.
  unfold computeDaylightColorLegacy.
  destruct (Qlt_bool t 6 || Qle_bool 18 t) eqn:E.
  - unfold inRange; cbn. lia.
  - pose proof (daylightChannels_255 t (day_or_night t E)) as (Hr & Hg & Hbl).
    destruct (daylightChannels Math_sin t) as [[cr cg] cb].
    cbn [fst snd r g b] in Hr, Hg, Hbl. unfold inRange; cbn [r g b].
    repeat split; apply (Math_round_between 0 255); assumption.
Qed.

End DaylightRange.

(** C8.  On well-formed input (brightness in 0..255, time boundaries that
    are times of day, six-digit colours) every colour either engine
    answers has its three integer channels in 0..255.  The daylight
    channels stay between the anchor colours (sunrise and noon before
    12, sunset and noon after), and every timer answer is the window's
    colour at a progress between 0 and 1, scaled by the brightness.  The
    host sine is assumed to stay in [0, 1] on [0, pi]. *)
Theorem channels_in_range (Math_sin : Q -> Q) (bri : Q) :
  (forall x, (0 <= x <= Math_PI)%Q -> (0 <= Math_sin x <= 1)%Q) ->
  (0 <= bri <= 255)%Q ->
  (forall t,
      inRange (computeDaylightColor Math_sin t bri)
      /\ inRange (computeDaylightColorLegacy Math_sin t))
  /\ (forall t, (6 <= t < 18)%Q ->
        channelsBetween (if Qlt_bool t 12 then sunriseColor else sunsetColor)
                        noonColor (daylightChannels Math_sin t))
  /\ (forall nowMins w a,
        validMinutes nowMins -> validBounds w ->
        timerBody nowMins bri w = Some a ->
        exists p c,
          (0 <= p <= 1)%Q /\ c = fadedColor (colorRgb w) p bri
          /\ a = Colour c /\ inRange c)
  /\ (forall nowMins cfg,
        validMinutes nowMins -> wellFormedTimers cfg = true ->
        exists resp,
          computeTimerColor nowMins cfg bri = Some resp
          /\ (resp = JsonColorNull \/ exists c, resp = JsonRgb c /\ inRange c)).
Proof.
  intros Hsin Hb. split; [| split; [| split]].
  - intros t. split.
    + apply computeDaylightColor_inRange; assumption.
    + apply computeDaylightColorLegacy_inRange; assumption.
  - intros t Ht. apply daylightChannels_between; assumption.
  - intros nowMins w a Hn Hv Ha.
    destruct (timerBody_progress _ _ _ _ Hn Hv Ha) as (p & Hp & E).
    exists p, (fadedColor (colorRgb w) p bri).
    split; [exact Hp |]. split; [reflexivity |]. split; [exact E |].
    apply fadedColor_inRange; [apply Hv | exact Hp | exact Hb].
  - intros nowMins cfg Hn Hw. unfold computeTimerColor, wellFormedTimers in *.
    destruct (lightTimers cfg) as [| | l];
      destruct (truthy (lightTimerEnabled cfg)); cbn [negb orb isArray];
      try (exists JsonColorNull; split; [reflexivity | left; reflexivity]).
    apply timerLoop_inRange; assumption.
Qed.

Lemma channels_in_range_witness :
  inRange (computeDaylightColor bhaskaraSin (fractionalHour 9 30) 200)
  /\ computeDaylightColor bhaskaraSin (fractionalHour 9 30) 200
     = mkRgb 200 183 167
  /\ exists c,
       computeTimerColor 1170 (enabledTimers [dayTimer]) 200
       = Some (JsonRgb c) /\ inRange c.
Proof.
  assert (Hb : (0 <= 200 <= 255)%Q) by (split; discriminate).
  destruct (channels_in_range bhaskaraSin 200 bhaskaraSin_range Hb)
    as (Hday & _ & _ & Htimer).
  split; [exact (proj1 (Hday (fractionalHour 9 30))) |].
  split; [reflexivity |].
  assert (Hn : validMinutes 1170) by (unfold validMinutes; lia).
  destruct (Htimer 1170 (enabledTimers [dayTimer]) Hn eq_refl)
    as (resp & Hr & [Hnull | (c & Hc & Hin)]).
  - rewrite Hnull in Hr. vm_compute in Hr. discriminate Hr.
  - exists c. rewrite <- Hc. split; [exact Hr | exact Hin].
Defined.

(** ** The brightness default *)

Lemma orDefault255_falsy (x : field Q) : falsy x -> orDefault255 x = 255%Q.
Proof.
  intros [-> | [-> | (q & -> & Hq)]]; try reflexivity.
  unfold orDefault255. apply Qeq_bool_iff in Hq. rewrite Hq. reflexivity.
Qed.

(** C9.  For a user whose stored brightness is absent, null or zero, both
    handlers compute with brightness 255: the daylight handler answers the
    daylight colour at 255, and the timer handler answers what the timer
    engine gives at 255.  A stored 0 is such a value. *)
Theorem falsy_brightness_is_255 (Math_sin : Q -> Q) (e em : string)
    (users : list User) (s : Settings) (hour minute : Z) :
  e <> EmptyString ->
  findUser users e = Some (mkUser em (Val s)) ->
  falsy (brightness s) ->
  falsy (Val 0%Q)
  /\ autoLight Math_sin (Some e) (Some users) hour minute
     = JsonRgb (computeDaylightColor Math_sin (fractionalHour hour minute) 255)
  /\ (forall cfg, timers s = Val cfg ->
        lightTimerColor (Some e) (Some users) hour minute
        = computeTimerColor (minutesSinceMidnight hour minute) cfg 255).
Proof.
  intros He Hu Hf. pose proof (orDefault255_falsy _ Hf) as Hd.
  split; [| split].
  - right. right. exists 0%Q. split; reflexivity.
  - unfold autoLight. destruct e as [| c e']; [contradiction He; reflexivity |].
    rewrite Hu, Hd. reflexivity.
  - intros cfg Hc. unfold lightTimerColor.
    destruct e as [| c e']; [contradiction He; reflexivity |].
    cbn [loadUsers]. rewrite Hu. destruct s as [sb st]. cbn in Hc, Hd.
    rewrite Hc, Hd. reflexivity.
Qed.

Lemma falsy_brightness_is_255_witness :
  autoLight bhaskaraSin (Some "dim@example.org"%string) (Some [dimUser]) 23 0
  = JsonRgb (mkRgb 20 20 60)
  /\ lightTimerColor (Some "dim@example.org"%string) (Some [dimUser]) 12 0
     = Some (JsonRgb (mkRgb 255 153 0)).
Proof.
  assert (He : "dim@example.org"%string <> EmptyString) by discriminate.
  assert (Hf : falsy (Val 0%Q))
    by (right; right; exists 0%Q; split; reflexivity).
  destruct (falsy_brightness_is_255 bhaskaraSin "dim@example.org"
              "dim@example.org" [dimUser]
              (mkSettings (Val 0%Q) (Val (enabledTimers [dayTimer])))
              23 0 He eq_refl Hf) as (_ & H1 & _).
  destruct (falsy_brightness_is_255 bhaskaraSin "dim@example.org"
              "dim@example.org" [dimUser]
              (mkSettings (Val 0%Q) (Val (enabledTimers [dayTimer])))
              12 0 He eq_refl Hf) as (_ & _ & H2).
  split; [exact H1 |].
  exact (H2 (enabledTimers [dayTimer]) eq_refl).
Defined.

(** ** Agreement with binary64 on the inputs above

    The exact rationals and binary64 give the same answers on the
    instances the properties above speak of; these are checked by
    evaluating every case. *)

Lemma upto_forallb (P : Z -> bool) (n : nat) :
  forallb P (upto n) = true ->
  forall z, 0 <= z < Z.of_nat n -> P z = true.
Proof.
  intros H z Hz. rewrite forallb_forall in H. apply H.
  unfold upto. rewrite <- (Z2Nat.id z) by lia.
  apply in_map, in_seq. lia.
Qed.

Lemma rgb_eqb_eq (x y : rgb) : rgb_eqb x y = true -> x = y.
Proof.
  destruct x, y. unfold rgb_eqb; cbn [r g b].
  rewrite !andb_true_iff, !Z.eqb_eq. intros [[-> ->] ->]. reflexivity.
Qed.

Lemma some_rgb_eqb_eq (x : option rgb) (y : rgb) :
  some_rgb_eqb x y = true -> x = Some y.
Proof.
  destruct x as [c |]; [| discriminate]. cbn. intros H.
  f_equal. apply rgb_eqb_eq, H.
Qed.

(** On every clock time the three comparisons of the daylight handler
    come out the same on binary64 as on the rationals. *)
Lemma binary64_clock_tests (hour minute : Z) :
  0 <= hour < 24 -> 0 <= minute < 60 ->
  Binary64.nightTest (Binary64.fractionalHour64 hour minute)
  = Qlt_bool (fractionalHour hour minute) 6
    || Qle_bool 18 (fractionalHour hour minute)
  /\ Binary64.beforeNoon (Binary64.fractionalHour64 hour minute)
     = Qlt_bool (fractionalHour hour minute) 12.
Proof.
  intros Hh Hm.
  assert (H : forallb (fun h => forallb (fun m =>
              Bool.eqb (Binary64.nightTest (Binary64.fractionalHour64 h m))
                       (Qlt_bool (fractionalHour h m) 6
                        || Qle_bool 18 (fractionalHour h m))
              && Bool.eqb (Binary64.beforeNoon (Binary64.fractionalHour64 h m))
                          (Qlt_bool (fractionalHour h m) 12))
              (upto 60)) (upto 24) = true) by (vm_compute; reflexivity).
  pose proof (upto_forallb _ 24 H hour Hh) as H1. cbv beta in H1.
  pose proof (upto_forallb _ 60 H1 minute Hm) as H2. cbv beta in H2.
  apply andb_true_iff in H2. destruct H2 as [Ha Hb].
  apply Bool.eqb_prop in Ha, Hb. split; assumption.
Qed.

(** The night branch on binary64 is the rounded scaling, for every
    integer brightness from 0 to 255. *)
Lemma binary64_night_color (bri : Z) :
  0 <= bri <= 255 ->
  Binary64.nightColor64 bri = Some (scaleColor nightColor bri).
Proof.
  intros Hb. apply some_rgb_eqb_eq.
  apply (upto_forallb
           (fun z => some_rgb_eqb (Binary64.nightColor64 z)
                                  (scaleColor nightColor z)) 256);
    [vm_compute; reflexivity | lia].
Qed.

(** At 12:00 the angle on binary64 is exactly half of [Math_PI], and the
    noon colour scaled by a brightness from 0 to 255 is the brightness. *)
Lemma binary64_noon (bri : Z) :
  0 <= bri <= 255 ->
  Binary64.angleRad (Binary64.fractionalHour64 12 0)
  = (Binary64.Math_PI64 / 2)%float
  /\ Binary64.scaledColor64 255 255 255 bri = Some (mkRgb bri bri bri).
Proof.
  intros Hb. split; [vm_compute; reflexivity |].
  apply some_rgb_eqb_eq.
  apply (upto_forallb
           (fun z => some_rgb_eqb (Binary64.scaledColor64 255 255 255 z)
                                  (mkRgb z z z)) 256);
    [vm_compute; reflexivity | lia].
Qed.

(** The round-trip window on binary64 at 06:30, 12:00 and 19:30. *)
Lemma binary64_day_timer :
  readTimer dayTimer = Some dayBounds
  /\ Binary64.timerBody64 390 255 dayBounds = Some (Some (mkRgb 128 77 0))
  /\ Binary64.timerBody64 720 255 dayBounds = Some (Some (mkRgb 255 153 0))
  /\ Binary64.timerBody64 1170 255 dayBounds = Some (Some (mkRgb 128 77 0)).
Proof. repeat split; vm_compute; reflexivity. Qed.

(** Where the exact value of a channel is a half-integer the two can
    differ by one: at 19:14 the exact red channel of the round-trip window
    is 195.5, which rounds up, while binary64 computes a number just
    below it. *)
Lemma binary64_tie :
  timerBody 1154 255 dayBounds = Some (Colour (mkRgb 196 117 0))
  /\ Binary64.timerBody64 1154 255 dayBounds = Some (Some (mkRgb 195 117 0)).
Proof. split; vm_compute; reflexivity. Qed.

(** ** The night colour of the handlers *)

(** C1 as worded fails twice.  The earlier handler reads no brightness:
    at 00:00 it answers (20, 20, 60), which is not the night colour scaled
    by 128/255.  The current handler replaces a stored brightness of 0 by
    255 before it scales: for a user who stored 0 it answers (20, 20, 60)
    at 00:00, not the night colour scaled by 0/255. *)
Lemma night_color_not_scaled :
  autoLightLegacy bhaskaraSin 0 0 = JsonRgb (mkRgb 20 20 60)
  /\ scaleColor nightColor 128 = mkRgb 10 10 30
  /\ autoLightLegacy bhaskaraSin 0 0 <> JsonRgb (scaleColor nightColor 128)
  /\ brightness (mkSettings (Val 0%Q) (Val (enabledTimers [dayTimer])))
     = Val (inject_Z 0)
  /\ autoLight bhaskaraSin (Some "dim@example.org"%string) (Some [dimUser]) 0 0
     = JsonRgb (mkRgb 20 20 60)
  /\ scaleColor nightColor 0 = mkRgb 0 0 0
  /\ autoLight bhaskaraSin (Some "dim@example.org"%string) (Some [dimUser]) 0 0
     <> JsonRgb (scaleColor nightColor 0).
Proof.
  split; [reflexivity |]. split; [reflexivity |].
  split; [vm_compute; discriminate |].
  split; [reflexivity |]. split; [reflexivity |]. split; [reflexivity |].
  vm_compute. discriminate.
Qed.

(** C1 (amended).  For a user whose stored brightness is an integer [n]
    from 0 to 255, at a clock time outside [6, 18) the current handler
    answers the night colour (20, 20, 60) scaled by [used / 255] and
    rounded to the nearest integer, where [used] is [n], or 255 when [n]
    is 0.  Binary64 takes the same branch and computes the same three
    channels.  The earlier handler answers the night colour itself, which
    is the scaled colour at brightness 255. *)
Theorem night_color_scaled (Math_sin : Q -> Q) (e em : string)
    (users : list User) (s : Settings) (hour minute n : Z) :
  e <> EmptyString ->
  findUser users e = Some (mkUser em (Val s)) ->
  brightness s = Val (inject_Z n) ->
  0 <= n <= 255 ->
  0 <= hour < 24 -> 0 <= minute < 60 ->
  (fractionalHour hour minute < 6 \/ 18 <= fractionalHour hour minute)%Q ->
  autoLight Math_sin (Some e) (Some users) hour minute
  = JsonRgb (scaleColor nightColor (effectiveBrightness n))
  /\ scaledTo nightColor (inject_Z (effectiveBrightness n))
       (scaleColor nightColor (effectiveBrightness n))
  /\ Binary64.nightTest (Binary64.fractionalHour64 hour minute) = true
  /\ Binary64.nightColor64 (effectiveBrightness n)
     = Some (scaleColor nightColor (effectiveBrightness n))
  /\ autoLightLegacy Math_sin hour minute = JsonRgb nightColor
  /\ nightColor = scaleColor nightColor 255.
Proof.
  intros He Hu Hb Hn Hh Hm Ht.
  destruct (night_branch Math_sin (fractionalHour hour minute)
              (inject_Z (effectiveBrightness n)) (effectiveBrightness n) Ht)
    as (Hs & Hc & Hl).
  split; [| split; [| split; [| split; [| split]]]].
  - unfold autoLight. destruct e as [| c e']; [contradiction He; reflexivity |].
    rewrite Hu, Hb, orDefault255_integer, Hc. reflexivity.
  - rewrite <- Hc. exact Hs.
  - rewrite (proj1 (binary64_clock_tests hour minute Hh Hm)).
    apply night_test, Ht.
  - apply binary64_night_color. unfold effectiveBrightness.
    destruct (n =? 0); lia.
  - unfold autoLightLegacy. rewrite Hl. reflexivity.
  - reflexivity.
Qed.

Lemma night_color_scaled_witness :
  autoLight bhaskaraSin (Some "dim@example.org"%string)
    (Some [userWith (Val 128%Q) [dayTimer]]) 23 30
  = JsonRgb (mkRgb 10 10 30).
Proof.
  assert (He : "dim@example.org"%string <> EmptyString) by discriminate.
  assert (Ht : (fractionalHour 23 30 < 6 \/ 18 <= fractionalHour 23 30)%Q).
  { right. vm_compute. discriminate. }
  exact (proj1 (night_color_scaled bhaskaraSin "dim@example.org"
                  "dim@example.org" [userWith (Val 128%Q) [dayTimer]]
                  (mkSettings (Val 128%Q) (Val (enabledTimers [dayTimer])))
                  23 30 128 He eq_refl eq_refl
                  ltac:(lia) ltac:(lia) ltac:(lia) Ht)).
Defined.

(** * Further properties

    Properties of the helpers and the two engines beyond the ones above,
    then of the handlers that write the user file. *)

(** ** Reading colours and times *)

Lemma hexDigit_range (c : ascii) (d : Z) : hexDigit c = Some d -> 0 <= d <= 15.
Proof.
  unfold hexDigit.
  repeat match goal with
  | |- context [if ?t then _ else _] => destruct t eqn:?
  end; intros H; try discriminate; injection H as <-;
  repeat match goal with
  | E : _ && _ = true |- _ => apply andb_true_iff in E; destruct E
  | E : (_ <=? _) = true |- _ => apply Z.leb_le in E
  end; lia.
Qed.

Lemma channels_of_packed (k rr gg bb : Z) :
  0 <= rr < 256 -> 0 <= gg < 256 -> 0 <= bb < 256 ->
  let v := ToInt32 (k * 16777216 + rr * 65536 + gg * 256 + bb) in
  Z.land (Z.shiftr v 16) 255 = rr
  /\ Z.land (Z.shiftr v 8) 255 = gg
  /\ Z.land v 255 = bb.
Proof.
  intros Hr Hg Hb v.
  assert (Hv : exists j, v = (k + j * 256) * 16777216 + rr * 65536 + gg * 256 + bb).
  { unfold v, ToInt32.
    set (x := k * 16777216 + rr * 65536 + gg * 256 + bb).
    pose proof (Z.div_mod x 4294967296 ltac:(lia)) as E.
    destruct (x mod 4294967296 <? 2147483648).
    - exists (- (x / 4294967296)). lia.
    - exists (- (x / 4294967296) - 1). lia. }
  destruct Hv as [j Hj]. clearbody v. subst v.
  change 255 with (Z.ones 8).
  rewrite !Z.land_ones, !Z.shiftr_div_pow2 by lia.
  change (2 ^ 16) with 65536. change (2 ^ 8) with 256.
  set (h := k + j * 256).
  assert (E16 : (h * 16777216 + rr * 65536 + gg * 256 + bb) / 65536
                = h * 256 + rr)
    by (symmetry; apply (Z.div_unique_pos _ 65536 _ (gg * 256 + bb)); lia).
  assert (E8 : (h * 16777216 + rr * 65536 + gg * 256 + bb) / 256
               = h * 65536 + rr * 256 + gg)
    by (symmetry; apply (Z.div_unique_pos _ 256 _ bb); lia).
  rewrite E16, E8. repeat split; symmetry.
  - apply (Z.mod_unique_pos _ 256 h); lia.
  - apply (Z.mod_unique_pos _ 256 (h * 256 + rr)); lia.
  - apply (Z.mod_unique_pos _ 256 (h * 65536 + rr * 256 + gg)); lia.
Qed.

Lemma hexDigit_isHex (c : ascii) (d : Z) : hexDigit c = Some d -> isHexDigit c = true.
Proof. unfold isHexDigit. intros ->. reflexivity. Qed.

Lemma hexToRgb_allHex (s : string) :
  allHex s = true -> (1 <= String.length s <= 13)%nat ->
  let v := ToInt32 (fst (hexPrefix 0 0 s)) in
  hexToRgb s = Some (mkRgb (Z.land (Z.shiftr v 16) 255)
                           (Z.land (Z.shiftr v 8) 255) (Z.land v 255))
  /\ hexToRgb (String "#" s)
     = Some (mkRgb (Z.land (Z.shiftr v 16) 255)
                   (Z.land (Z.shiftr v 8) 255) (Z.land v 255)).
Proof.
  intros Ha Hl v.
  assert (Hp : parseInt16 s = Some (fst (hexPrefix 0 0 s))).
  { unfold parseInt16.
    assert (Hbody :
      match s with
      | String c0 (String c1 rest) =>
          if Ascii.eqb c0 "0" && (Ascii.eqb c1 "x" || Ascii.eqb c1 "X")
          then rest else s
      | _ => s
      end = s).
    { destruct s as [| c0 [| c1 rest]]; try reflexivity.
      cbn [allHex] in Ha. apply andb_true_iff in Ha. destruct Ha as [_ Ha].
      apply andb_true_iff in Ha. destruct Ha as [H1 _].
      rewrite (isHexDigit_not c1 "x" eq_refl H1),
        (isHexDigit_not c1 "X" eq_refl H1), andb_false_r. reflexivity. }
    rewrite Hbody.
    destruct (hexPrefix_allHex s 0 0 Ha) as [x Hx]. rewrite Hx. cbn [fst].
    cbn [Nat.add].
    destruct (Nat.leb_spec 1 (String.length s)); [| lia].
    destruct (Nat.leb_spec (String.length s) 13); [| lia].
    reflexivity. }
  split; unfold hexToRgb.
  - rewrite (removeFirst_allHex s Ha), Hp. reflexivity.
  - cbn [removeFirst]. rewrite Ascii.eqb_refl, Hp. reflexivity.
Qed.

(** X1.  Six hexadecimal digits, in either case and with or without a
    leading [#], are read as three pairs: red, green, blue, each
    16 * first + second, so each in 0..255. *)
Theorem hexToRgb_six_digits (c1 c2 c3 c4 c5 c6 : ascii) (d1 d2 d3 d4 d5 d6 : Z) :
  hexDigit c1 = Some d1 -> hexDigit c2 = Some d2 -> hexDigit c3 = Some d3 ->
  hexDigit c4 = Some d4 -> hexDigit c5 = Some d5 -> hexDigit c6 = Some d6 ->
  let s := string_of_list_ascii [c1; c2; c3; c4; c5; c6] in
  let c := mkRgb (16 * d1 + d2) (16 * d3 + d4) (16 * d5 + d6) in
  hexToRgb s = Some c /\ hexToRgb (String "#" s) = Some c /\ inRange c.
Proof.
  intros H1 H2 H3 H4 H5 H6 s c.
  assert (Ha : allHex s = true).
  { unfold s; cbn [string_of_list_ascii allHex].
    rewrite (hexDigit_isHex _ _ H1), (hexDigit_isHex _ _ H2),
      (hexDigit_isHex _ _ H3), (hexDigit_isHex _ _ H4),
      (hexDigit_isHex _ _ H5), (hexDigit_isHex _ _ H6). reflexivity. }
  assert (Hv : fst (hexPrefix 0 0 s)
               = 0 * 16777216 + (16 * d1 + d2) * 65536
                 + (16 * d3 + d4) * 256 + (16 * d5 + d6)).
  { unfold s; cbn [string_of_list_ascii hexPrefix].
    rewrite H1, H2, H3, H4, H5, H6. cbn [fst]. ring. }
  pose proof (hexDigit_range _ _ H1). pose proof (hexDigit_range _ _ H2).
  pose proof (hexDigit_range _ _ H3). pose proof (hexDigit_range _ _ H4).
  pose proof (hexDigit_range _ _ H5). pose proof (hexDigit_range _ _ H6).
  destruct (hexToRgb_allHex s Ha) as [E1 E2]; [unfold s; cbn; lia |].
  rewrite Hv in E1, E2.
  destruct (channels_of_packed 0 (16 * d1 + d2) (16 * d3 + d4) (16 * d5 + d6))
    as (Er & Eg & Eb); try lia.
  rewrite Er, Eg, Eb in E1, E2.
  split; [exact E1 |]. split; [exact E2 |].
  unfold inRange, c; cbn [r g b]. lia.
Qed.


Lemma hexToRgb_six_digits_witness :
  hexToRgb "#fF9900" = Some (mkRgb 255 153 0).
Proof.
  exact (proj1 (proj2 (hexToRgb_six_digits "f" "F" "9" "9" "0" "0"
                         15 15 9 9 0 0
                         eq_refl eq_refl eq_refl eq_refl eq_refl eq_refl))).
Defined.

(** X2.  A three-digit colour is not expanded as the CSS shorthand: it is
    read as a number with leading zeros, so red is 0, green is the first
    digit and blue is 16 * second + third. *)
Theorem hexToRgb_three_digits (c1 c2 c3 : ascii) (d1 d2 d3 : Z) :
  hexDigit c1 = Some d1 -> hexDigit c2 = Some d2 -> hexDigit c3 = Some d3 ->
  let s := string_of_list_ascii [c1; c2; c3] in
  let c := mkRgb 0 d1 (16 * d2 + d3) in
  hexToRgb s = Some c /\ hexToRgb (String "#" s) = Some c.
Proof.
  intros H1 H2 H3 s c.
  assert (Ha : allHex s = true).
  { unfold s; cbn [string_of_list_ascii allHex].
    rewrite (hexDigit_isHex _ _ H1), (hexDigit_isHex _ _ H2),
      (hexDigit_isHex _ _ H3). reflexivity. }
  assert (Hv : fst (hexPrefix 0 0 s)
               = 0 * 16777216 + 0 * 65536 + d1 * 256 + (16 * d2 + d3)).
  { unfold s; cbn [string_of_list_ascii hexPrefix].
    rewrite H1, H2, H3. cbn [fst]. ring. }
  pose proof (hexDigit_range _ _ H1). pose proof (hexDigit_range _ _ H2).
  pose proof (hexDigit_range _ _ H3).
  destruct (hexToRgb_allHex s Ha) as [E1 E2]; [unfold s; cbn; lia |].
  rewrite Hv in E1, E2.
  destruct (channels_of_packed 0 0 d1 (16 * d2 + d3)) as (Er & Eg & Eb);
    try lia.
  rewrite Er, Eg, Eb in E1, E2. split; assumption.
Qed.


Lemma hexToRgb_three_digits_witness :
  hexToRgb "#F90" = Some (mkRgb 0 15 144).
Proof.
  exact (proj2 (hexToRgb_three_digits "F" "9" "0" 15 9 0
                  eq_refl eq_refl eq_refl)).
Defined.

(** X3.  Of an eight-digit colour the first two digits are lost: the masks
    read the last six, also when the 32-bit value is negative. *)
Theorem hexToRgb_eight_digits (c1 c2 c3 c4 c5 c6 c7 c8 : ascii)
    (d1 d2 d3 d4 d5 d6 d7 d8 : Z) :
  hexDigit c1 = Some d1 -> hexDigit c2 = Some d2 -> hexDigit c3 = Some d3 ->
  hexDigit c4 = Some d4 -> hexDigit c5 = Some d5 -> hexDigit c6 = Some d6 ->
  hexDigit c7 = Some d7 -> hexDigit c8 = Some d8 ->
  let s := string_of_list_ascii [c1; c2; c3; c4; c5; c6; c7; c8] in
  let c := mkRgb (16 * d3 + d4) (16 * d5 + d6) (16 * d7 + d8) in
  hexToRgb s = Some c /\ hexToRgb (String "#" s) = Some c.
Proof.
  intros H1 H2 H3 H4 H5 H6 H7 H8 s c.
  assert (Ha : allHex s = true).
  { unfold s; cbn [string_of_list_ascii allHex].
    rewrite (hexDigit_isHex _ _ H1), (hexDigit_isHex _ _ H2),
      (hexDigit_isHex _ _ H3), (hexDigit_isHex _ _ H4),
      (hexDigit_isHex _ _ H5), (hexDigit_isHex _ _ H6),
      (hexDigit_isHex _ _ H7), (hexDigit_isHex _ _ H8). reflexivity. }
  assert (Hv : fst (hexPrefix 0 0 s)
               = (16 * d1 + d2) * 16777216 + (16 * d3 + d4) * 65536
                 + (16 * d5 + d6) * 256 + (16 * d7 + d8)).
  { unfold s; cbn [string_of_list_ascii hexPrefix].
    rewrite H1, H2, H3, H4, H5, H6, H7, H8. cbn [fst]. ring. }
  pose proof (hexDigit_range _ _ H3). pose proof (hexDigit_range _ _ H4).
  pose proof (hexDigit_range _ _ H5). pose proof (hexDigit_range _ _ H6).
  pose proof (hexDigit_range _ _ H7). pose proof (hexDigit_range _ _ H8).
  destruct (hexToRgb_allHex s Ha) as [E1 E2]; [unfold s; cbn; lia |].
  rewrite Hv in E1, E2.
  destruct (channels_of_packed (16 * d1 + d2) (16 * d3 + d4) (16 * d5 + d6)
              (16 * d7 + d8)) as (Er & Eg & Eb); try lia.
  rewrite Er, Eg, Eb in E1, E2. split; assumption.
Qed.


Lemma hexToRgb_eight_digits_witness :
  hexToRgb "#FF990080" = Some (mkRgb 153 0 128).
Proof.
  exact (proj2 (hexToRgb_eight_digits "F" "F" "9" "9" "0" "0" "8" "0"
                  15 15 9 9 0 0 8 0
                  eq_refl eq_refl eq_refl eq_refl eq_refl eq_refl eq_refl
                  eq_refl)).
Defined.

Lemma decDigit_not_colon (c : ascii) (d : Z) :
  decDigit c = Some d -> Ascii.eqb c ":" = false.
Proof.
  intros H. destruct (Ascii.eqb_spec c ":") as [-> |]; [discriminate | reflexivity].
Qed.

Lemma split_cons (sep : ascii) (s : string) :
  exists x xs, split sep s = x :: xs.
Proof.
  induction s as [| c s (x & xs & IH)]; cbn [split]; [eauto |].
  destruct (Ascii.eqb c sep); [eauto |]. rewrite IH. eauto.
Qed.

Lemma split_other (sep c : ascii) (s : string) :
  Ascii.eqb c sep = false ->
  split sep (String c s)
  = match split sep s with
    | x :: xs => String c x :: xs
    | [] => [String c EmptyString]
    end.
Proof. intros H. cbn [split]. rewrite H. reflexivity. Qed.

Lemma split_sep (sep : ascii) (s : string) :
  split sep (String sep s) = EmptyString :: split sep s.
Proof. cbn [split]. rewrite Ascii.eqb_refl. reflexivity. Qed.

Lemma Number_two_digits (x y : ascii) (dx dy : Z) :
  decDigit x = Some dx -> decDigit y = Some dy ->
  Number (String x (String y EmptyString)) = Some (10 * dx + dy).
Proof.
  intros Hx Hy.
  change (Number (String x (String y EmptyString)))
    with (decValue 0 (String x (String y EmptyString))).
  cbn [decValue]. rewrite Hx. cbn [bind]. rewrite Hy. cbn [bind].
  f_equal. ring.
Qed.

(** X4.  [timeToMinutes] reads two digits, a colon and two digits as
    hours * 60 + minutes without checking either range, and ignores a
    further colon and whatever follows it. *)
Theorem timeToMinutes_two_digits (a b c d : ascii) (da db dc dd : Z) (rest : string) :
  decDigit a = Some da -> decDigit b = Some db ->
  decDigit c = Some dc -> decDigit d = Some dd ->
  timeToMinutes (string_of_list_ascii [a; b; ":"%char; c; d])
  = Some ((10 * da + db) * 60 + (10 * dc + dd))
  /\ timeToMinutes (string_of_list_ascii [a; b; ":"%char; c; d] ++ String ":" rest)
     = Some ((10 * da + db) * 60 + (10 * dc + dd)).
Proof.
  intros Ha Hb Hc Hd.
  pose proof (decDigit_not_colon _ _ Ha) as Na.
  pose proof (decDigit_not_colon _ _ Hb) as Nb.
  pose proof (decDigit_not_colon _ _ Hc) as Nc.
  pose proof (decDigit_not_colon _ _ Hd) as Nd.
  split; unfold timeToMinutes; cbn [string_of_list_ascii append].
  - rewrite (split_other _ a _ Na), (split_other _ b _ Nb), split_sep,
      (split_other _ c _ Nc), (split_other _ d _ Nd).
    cbn [split].
    rewrite (Number_two_digits _ _ _ _ Ha Hb), (Number_two_digits _ _ _ _ Hc Hd).
    reflexivity.
  - rewrite (split_other _ a _ Na), (split_other _ b _ Nb), split_sep,
      (split_other _ c _ Nc), (split_other _ d _ Nd), split_sep.
    rewrite (Number_two_digits _ _ _ _ Ha Hb), (Number_two_digits _ _ _ _ Hc Hd).
    reflexivity.
Qed.


Lemma timeToMinutes_two_digits_witness :
  timeToMinutes "25:70" = Some 1570
  /\ timeToMinutes "25:70:59" = Some 1570.
Proof.
  exact (timeToMinutes_two_digits "2" "5" "7" "0" 2 5 7 0 "59"
           eq_refl eq_refl eq_refl eq_refl).
Defined.

(** ** The timer scan, further *)

Lemma respond_not_null (a : answer) : respond a <> JsonColorNull.
Proof. destruct a; discriminate. Qed.

(** X5.  For a list whose windows can all be read, the scan answers
    [{color: null}] exactly when no window contains the current time. *)
Theorem scan_null_iff_none_active (nowMins : Z) (bri : Q)
    (l : list TimerWindow) (ws : list Bounds) :
  Forall2 (fun t w => readTimer t = Some w) l ws ->
  (timerLoop nowMins bri l = Some JsonColorNull
   <-> Forall (fun w => active nowMins w = false) ws).
Proof.
  induction 1 as [| t w l ws Hr _ IH]; cbn [timerLoop].
  - split; [constructor | reflexivity].
  - rewrite Hr. cbn [bind].
    destruct (active nowMins w) eqn:Ea.
    + destruct (timerBody_active nowMins bri w Ea) as [a Ha]. rewrite Ha.
      split.
      * intros E. injection E as E. destruct (respond_not_null a E).
      * intros HF. inversion HF; subst. congruence.
    + rewrite (timerBody_inactive nowMins bri w Ea). rewrite IH. split.
      * intros HF. constructor; assumption.
      * intros HF. inversion HF; assumption.
Qed.


Lemma scan_null_iff_none_active_witness :
  timerLoop 1230 255 [dayTimer; nightTimer] = Some JsonColorNull.
Proof.
  assert (H : Forall2 (fun t w => readTimer t = Some w)
                [dayTimer; nightTimer]
                [dayBounds; mkBounds 1260 1320 120 180 (mkRgb 0 0 255)])
    by (repeat constructor).
  apply (proj2 (scan_null_iff_none_active 1230 255 _ _ H)).
  constructor; [reflexivity |]. constructor; [reflexivity |]. constructor.
Defined.

Lemma scale_full (x : Z) : Math_round (inject_Z x * 255 / 255) = x.
Proof.
  transitivity (Math_round (inject_Z x)); [| apply Math_round_Z].
  apply Math_round_proper. field.
Qed.

Lemma peakColor_full (c : rgb) : peakColor c 255 = c.
Proof.
  destruct c as [x y z]. unfold peakColor; cbn [r g b].
  rewrite !scale_full. reflexivity.
Qed.

(** X6.  At brightness 255 a window in its peak answers exactly its
    stored colour. *)
Theorem peak_at_full_brightness (nowMins : Z) (w : Bounds) :
  (fadeInElapsed nowMins w <? fadeInDuration w) = false ->
  inPeak nowMins w = true ->
  timerBody nowMins 255 w = Some (Colour (colorRgb w)).
Proof.
  intros H1 H2. unfold timerBody, peakBlock. rewrite H1, H2, peakColor_full.
  reflexivity.
Qed.


Lemma peak_at_full_brightness_witness :
  timerBody 720 255 dayBounds = Some (Colour (mkRgb 255 153 0)).
Proof. exact (peak_at_full_brightness 720 dayBounds eq_refl eq_refl). Defined.

Lemma inject_Z_nonneg (z : Z) : 0 <= z -> (0 <= inject_Z z)%Q.
Proof. intros H. change 0%Q with (inject_Z 0). rewrite <- Zle_Qle. exact H. Qed.

Lemma quotient_le (e1 e2 d : Z) :
  0 <= e1 <= e2 -> e2 < d ->
  (inject_Z e1 / inject_Z d <= inject_Z e2 / inject_Z d)%Q.
Proof.
  intros He Hd.
  assert (Hd' : (0 < inject_Z d)%Q)
    by (change 0%Q with (inject_Z 0); rewrite <- Zlt_Qlt; lia).
  assert (H12 : (inject_Z e1 <= inject_Z e2)%Q) by (rewrite <- Zle_Qle; lia).
  unfold Qdiv. apply Qmult_le_compat_r; [exact H12 |].
  apply Qlt_le_weak, Qinv_lt_0_compat, Hd'.
Qed.

Lemma faded_channel_mono (c : Z) (p1 p2 bri : Q) :
  0 <= c -> (p1 <= p2)%Q -> (0 <= bri)%Q ->
  Math_round (inject_Z c * p1 * bri / 255)
  <= Math_round (inject_Z c * p2 * bri / 255).
Proof.
  intros Hc Hp Hb. apply Math_round_mono.
  apply inject_Z_nonneg in Hc.
  assert (H1 : (inject_Z c * p1 <= inject_Z c * p2)%Q).
  { rewrite !(Qmult_comm (inject_Z c)). apply Qmult_le_compat_r; assumption. }
  assert (H2 : (inject_Z c * p1 * bri <= inject_Z c * p2 * bri)%Q)
    by (apply Qmult_le_compat_r; assumption).
  unfold Qdiv. apply Qmult_le_compat_r; [exact H2 | discriminate].
Qed.

Lemma fadedColor_mono (c : rgb) (p1 p2 bri : Q) :
  0 <= r c -> 0 <= g c -> 0 <= b c -> (p1 <= p2)%Q -> (0 <= bri)%Q ->
  dimmer (fadedColor c p1 bri) (fadedColor c p2 bri).
Proof.
  intros. unfold dimmer, fadedColor; cbn [r g b].
  repeat split; apply faded_channel_mono; assumption.
Qed.

(** X7.  During the fade-in no channel decreases as time passes: of two
    times in the fade-in phase the later one is at least as bright on
    every channel. *)
Theorem fade_in_never_darkens (n1 n2 : Z) (bri : Q) (w : Bounds) :
  validMinutes n1 -> validBounds w -> (0 <= bri)%Q ->
  fadeInElapsed n1 w <= fadeInElapsed n2 w < fadeInDuration w ->
  exists c1 c2,
    timerBody n1 bri w = Some (Colour c1)
    /\ timerBody n2 bri w = Some (Colour c2)
    /\ dimmer c1 c2.
Proof.
  intros Hn (V1 & _ & _ & _ & (Hr & Hg & Hb)) Hbri [H12 H2].
  pose proof (elapsed_nonneg n1 (fadeInMins w) Hn V1) as He.
  fold (fadeInElapsed n1 w) in He.
  unfold timerBody.
  destruct (Z.ltb_spec (fadeInElapsed n1 w) (fadeInDuration w)); [| lia].
  destruct (Z.ltb_spec (fadeInElapsed n2 w) (fadeInDuration w)); [| lia].
  rewrite !quotient_some by lia. cbn [fadedAnswer].
  eexists. eexists. split; [reflexivity |]. split; [reflexivity |].
  apply fadedColor_mono; try lia; try assumption.
  apply quotient_le; lia.
Qed.


Lemma dayBounds_valid : validBounds dayBounds.
Proof. unfold validBounds, validMinutes, inRange; cbn. lia. Qed.

Lemma fade_in_never_darkens_witness :
  exists c1 c2,
    timerBody 370 200 dayBounds = Some (Colour c1)
    /\ timerBody 400 200 dayBounds = Some (Colour c2)
    /\ dimmer c1 c2.
Proof.
  apply fade_in_never_darkens.
  - unfold validMinutes. lia.
  - exact dayBounds_valid.
  - discriminate.
  - vm_compute. split; [discriminate | reflexivity].
Defined.

(** X8.  For a window whose boundaries are minutes of the day and whose
    colour is in range, and a brightness that is not negative: of two
    times of the fade-out phase (in neither the fade-in nor the peak) the
    later one is at most as bright on every channel. *)
Theorem fade_out_never_brightens (n1 n2 : Z) (bri : Q) (w : Bounds) :
  validMinutes n1 -> validBounds w -> (0 <= bri)%Q ->
  (fadeInElapsed n1 w <? fadeInDuration w) = false ->
  (fadeInElapsed n2 w <? fadeInDuration w) = false ->
  inPeak n1 w = false -> inPeak n2 w = false ->
  fadeOutElapsed n1 w <= fadeOutElapsed n2 w < fadeOutDuration w ->
  exists c1 c2,
    timerBody n1 bri w = Some (Colour c1)
    /\ timerBody n2 bri w = Some (Colour c2)
    /\ dimmer c2 c1.
Proof.
  intros Hn (_ & _ & V3 & _ & (Hr & Hg & Hb)) Hbri F1 F2 P1 P2 [H12 H2].
  pose proof (elapsed_nonneg n1 (peakEndMins w) Hn V3) as He.
  fold (fadeOutElapsed n1 w) in He.
  unfold timerBody, peakBlock, fadeOutBlock. rewrite F1, F2, P1, P2.
  destruct (Z.ltb_spec (fadeOutElapsed n1 w) (fadeOutDuration w)); [| lia].
  destruct (Z.ltb_spec (fadeOutElapsed n2 w) (fadeOutDuration w)); [| lia].
  rewrite !quotient_some by lia. cbn [option_map fadedAnswer].
  eexists. eexists. split; [reflexivity |]. split; [reflexivity |].
  apply fadedColor_mono; try lia; try assumption.
  pose proof (quotient_le (fadeOutElapsed n1 w) (fadeOutElapsed n2 w)
                (fadeOutDuration w) ltac:(lia) ltac:(lia)).
  lra.
Qed.


Lemma fade_out_never_brightens_witness :
  exists c1 c2,
    timerBody 1150 200 dayBounds = Some (Colour c1)
    /\ timerBody 1190 200 dayBounds = Some (Colour c2)
    /\ dimmer c2 c1.
Proof.
  apply fade_out_never_brightens; try reflexivity.
  - unfold validMinutes. lia.
  - exact dayBounds_valid.
  - discriminate.
  - vm_compute. split; [discriminate | reflexivity].
Defined.

Lemma fadedColor_proper (c : rgb) (p1 p2 bri : Q) :
  (p1 == p2)%Q -> fadedColor c p1 bri = fadedColor c p2 bri.
Proof.
  intros E. unfold fadedColor. f_equal; apply Math_round_proper; rewrite E;
    reflexivity.
Qed.

Lemma fadedColor_zero (c : rgb) (bri : Q) : fadedColor c 0 bri = mkRgb 0 0 0.
Proof.
  unfold fadedColor.
  assert (E : forall x, Math_round (inject_Z x * 0 * bri / 255) = 0).
  { intros x. transitivity (Math_round (inject_Z 0)); [| apply Math_round_Z].
    apply Math_round_proper. change (inject_Z 0) with 0%Q. field. }
  rewrite !E. reflexivity.
Qed.

(** X9.  At the minute a fade-in of positive length starts the answer is
    black, whatever the colour and the brightness. *)
Theorem fade_in_starts_black (bri : Q) (w : Bounds) :
  0 < fadeInDuration w ->
  timerBody (fadeInMins w) bri w = Some (Colour (mkRgb 0 0 0)).
Proof.
  intros Hd.
  assert (He : fadeInElapsed (fadeInMins w) w = 0)
    by (apply zero_duration; reflexivity).
  unfold timerBody. rewrite He.
  destruct (Z.ltb_spec 0 (fadeInDuration w)); [| lia].
  rewrite quotient_some by lia. cbn [fadedAnswer].
  rewrite (fadedColor_proper _ _ 0), fadedColor_zero; [reflexivity |].
  unfold Qdiv. apply Qmult_0_l.
Qed.


Lemma fade_in_starts_black_witness :
  timerBody 360 255 dayBounds = Some (Colour (mkRgb 0 0 0)).
Proof. apply (fade_in_starts_black 255 dayBounds). reflexivity. Defined.

(** X10.  The peak interval excludes its end.  When the minute the peak
    ends is not inside the window's fade-in (the fade-in test comes
    first) and the fade-out has positive length, the answer at that
    minute is the full peak colour, so it does not jump between peak and
    fade-out. *)
Theorem fade_out_starts_full (bri : Q) (w : Bounds) :
  (fadeInElapsed (peakEndMins w) w <? fadeInDuration w) = false ->
  0 < fadeOutDuration w ->
  inPeak (peakEndMins w) w = false
  /\ timerBody (peakEndMins w) bri w
     = Some (Colour (peakColor (colorRgb w) bri)).
Proof.
  intros Hf Hd.
  assert (Hp : inPeak (peakEndMins w) w = false).
  { unfold inPeak.
    rewrite (Z.ltb_irrefl (peakEndMins w)), andb_false_r, orb_false_r.
    destruct (Z.ltb_spec (peakEndMins w) (peakStartMins w)); [| reflexivity].
    destruct (Z.leb_spec (peakStartMins w) (peakEndMins w)); [lia | reflexivity]. }
  split; [exact Hp |].
  assert (He : fadeOutElapsed (peakEndMins w) w = 0)
    by (apply zero_duration; reflexivity).
  unfold timerBody, peakBlock, fadeOutBlock. rewrite Hf, Hp, He.
  destruct (Z.ltb_spec 0 (fadeOutDuration w)); [| lia].
  rewrite quotient_some by lia. cbn [option_map fadedAnswer].
  rewrite peakColor_faded. f_equal. f_equal. apply fadedColor_proper.
  unfold Qdiv. rewrite Qmult_0_l. reflexivity.
Qed.


Lemma fade_out_starts_full_witness :
  inPeak 1140 dayBounds = false
  /\ timerBody 1140 128 dayBounds = Some (Colour (peakColor (mkRgb 255 153 0) 128)).
Proof. apply (fade_out_starts_full 128 dayBounds); reflexivity. Defined.

(** X11.  With boundaries that are times of day and a colour in range, no
    channel of a timer answer is above an integer brightness in
    0..255. *)
Theorem timer_channel_at_most_brightness (nowMins n : Z) (w : Bounds) (c : rgb) :
  validMinutes nowMins -> validBounds w -> 0 <= n <= 255 ->
  timerBody nowMins (inject_Z n) w = Some (Colour c) ->
  r c <= n /\ g c <= n /\ b c <= n.
Proof.
  intros Hn Hv Hb Hc.
  destruct (timerBody_progress _ _ _ _ Hn Hv Hc) as (p & Hp & E).
  injection E as ->.
  destruct Hv as (_ & _ & _ & _ & (Hr & Hg & Hbl)).
  assert (Hq : (0 <= inject_Z n)%Q) by (apply inject_Z_nonneg; lia).
  assert (K : forall x, 0 <= x <= 255 ->
            Math_round (inject_Z x * p * inject_Z n / 255) <= n).
  { intros x Hx. apply (Math_round_between 0 n).
    apply (inject_Z_between 0 255) in Hx.
    change (inject_Z 0) with 0%Q in *. change (inject_Z 255) with 255%Q in Hx.
    assert (Hxp : (0 <= inject_Z x * p <= 255)%Q) by nra.
    split.
    - apply Qle_shift_div_l; [reflexivity |]. nra.
    - apply Qle_shift_div_r; [reflexivity |]. nra. }
  unfold fadedColor; cbn [r g b]. repeat split; apply K; assumption.
Qed.


Lemma timer_channel_at_most_brightness_witness :
  timerBody 1170 (inject_Z 100) dayBounds = Some (Colour (mkRgb 50 30 0))
  /\ 50 <= 100.
Proof.
  assert (H : timerBody 1170 (inject_Z 100) dayBounds
              = Some (Colour (mkRgb 50 30 0))) by reflexivity.
  split; [exact H |].
  assert (Hn : validMinutes 1170) by (unfold validMinutes; lia).
  exact (proj1 (timer_channel_at_most_brightness 1170 100 dayBounds _
                  Hn dayBounds_valid ltac:(lia) H)).
Defined.

(** ** The daylight curve, further *)

Lemma round_full (x : Q) : Math_round (x * 255 / 255) = Math_round x.
Proof. apply Math_round_proper. field. Qed.

(** X12.  At brightness 255 the current daylight handler answers what the
    earlier handler answers, at every time and for every host sine. *)
Theorem full_brightness_is_legacy (Math_sin : Q -> Q) (t : Q) :
  computeDaylightColor Math_sin t 255 = computeDaylightColorLegacy Math_sin t.
Proof.
  unfold computeDaylightColor, computeDaylightColorLegacy.
  destruct (Qlt_bool t 6 || Qle_bool 18 t); [reflexivity |].
  destruct (daylightChannels Math_sin t) as [[cr cg] cb].
  rewrite !round_full. reflexivity.
Qed.

(** X13.  Between 06:00 and 18:00 the red channel does not depend on the
    sine: it is the integer brightness itself in the current handler and
    255 in the earlier one. *)
Theorem day_red_is_brightness (Math_sin : Q -> Q) (t : Q) (n : Z) :
  (6 <= t < 18)%Q ->
  r (computeDaylightColor Math_sin t (inject_Z n)) = n
  /\ r (computeDaylightColorLegacy Math_sin t) = 255.
Proof.
  intros Ht. unfold computeDaylightColor, computeDaylightColorLegacy.
  rewrite (day_test t Ht). unfold daylightChannels.
  assert (E1 : forall i, (inject_Z (r sunriseColor)
                 + i * inject_Z (r noonColor - r sunriseColor) == inject_Z 255)%Q)
    by (intros i; cbn; ring).
  assert (E2 : forall i, (inject_Z (r noonColor)
                 - (1 - i) * inject_Z (r noonColor - r sunsetColor) == inject_Z 255)%Q)
    by (intros i; cbn; ring).
  assert (Hn : roundDiv (255 * n) 255 = n).
  { pose proof (scaleColor_noon n) as H. injection H as H _ _. exact H. }
  destruct (Qlt_bool t 12); cbn [sunriseToNoon noonToSunset r].
  - rewrite E1, scaled_channel, Hn, Math_round_Z. split; reflexivity.
  - rewrite E2, scaled_channel, Hn, Math_round_Z. split; reflexivity.
Qed.


Lemma day_red_is_brightness_witness :
  r (computeDaylightColor bhaskaraSin (fractionalHour 9 30) (inject_Z 128)) = 128.
Proof.
  assert (Ht : (6 <= fractionalHour 9 30 < 18)%Q)
    by (split; vm_compute; [discriminate | reflexivity]).
  exact (proj1 (day_red_is_brightness bhaskaraSin (fractionalHour 9 30) 128 Ht)).
Defined.

Section Sunrise.

Variable Math_sin : Q -> Q.
Hypothesis Math_sin_proper : Proper (Qeq ==> Qeq) Math_sin.
Hypothesis Math_sin_zero : (Math_sin 0 == 0)%Q.

(** X14.  At t = 6 the sine is taken at 0, where it is 0: the current
    handler answers the sunrise colour (255, 150, 50) scaled by the
    brightness, and the earlier one the sunrise colour. *)
Theorem sunrise_color (t : Q) (n : Z) :
  (t == 6)%Q ->
  (intensity Math_sin t == 0)%Q
  /\ computeDaylightColor Math_sin t (inject_Z n) = scaleColor sunriseColor n
  /\ computeDaylightColorLegacy Math_sin t = sunriseColor.
Proof.
  intros Ht.
  assert (Hi : (intensity Math_sin t == 0)%Q).
  { unfold intensity. rewrite <- Math_sin_zero. apply Math_sin_proper.
    rewrite Ht. reflexivity. }
  split; [exact Hi |].
  assert (Hday : Qlt_bool t 6 || Qle_bool 18 t = false)
    by (apply day_test; rewrite Ht; split; [apply Qle_refl | reflexivity]).
  assert (H12 : Qlt_bool t 12 = true)
    by (apply Qlt_bool_iff; rewrite Ht; reflexivity).
  unfold computeDaylightColor, computeDaylightColorLegacy, daylightChannels.
  rewrite Hday, H12. unfold sunriseToNoon.
  assert (E : forall x k, (inject_Z x + intensity Math_sin t * k == inject_Z x)%Q)
    by (intros x k; rewrite Hi; ring).
  rewrite !E, !scaled_channel, !Math_round_Z. split; reflexivity.
Qed.


End Sunrise.

Lemma sunrise_color_witness :
  computeDaylightColor bhaskaraSin (fractionalHour 6 0) (inject_Z 128)
  = mkRgb 128 75 25.
Proof.
  assert (H0 : (bhaskaraSin 0 == 0)%Q) by reflexivity.
  assert (H6 : (fractionalHour 6 0 == 6)%Q) by reflexivity.
  exact (proj1 (proj2 (sunrise_color bhaskaraSin bhaskaraSin_proper H0
                         (fractionalHour 6 0) 128 H6))).
Defined.

(** X15.  With a user file that cannot be read the daylight handler
    answers 500 while the timer handler answers 404, the answer it also
    gives for an unknown user; for an unknown user the daylight handler
    answers 404 too. *)
Theorem unreadable_file_answers (Math_sin : Q -> Q) (e : string)
    (users : list User) (hour minute : Z) :
  e <> EmptyString ->
  statusOf (autoLight Math_sin (Some e) None hour minute) = Some 500
  /\ lightTimerColor (Some e) None hour minute
     = Some (Status 404 "User or settings not found")
  /\ (findUser users e = None ->
      statusOf (autoLight Math_sin (Some e) (Some users) hour minute) = Some 404
      /\ lightTimerColor (Some e) (Some users) hour minute
         = lightTimerColor (Some e) None hour minute).
Proof.
  intros He. destruct e as [| c e']; [contradiction He; reflexivity |].
  split; [reflexivity |]. split; [reflexivity |].
  intros Hf. unfold autoLight, lightTimerColor; cbn [loadUsers].
  rewrite Hf. split; reflexivity.
Qed.


Lemma unreadable_file_answers_witness :
  statusOf (autoLight bhaskaraSin (Some "dim@example.org"%string) None 12 0)
  = Some 500
  /\ lightTimerColor (Some "dim@example.org"%string) None 12 0
     = Some (Status 404 "User or settings not found").
Proof.
  assert (He : "dim@example.org"%string <> EmptyString) by discriminate.
  destruct (unreadable_file_answers bhaskaraSin "dim@example.org" [] 12 0 He)
    as (H1 & H2 & _).
  split; assumption.
Defined.
(** ** The handlers that write the user file *)

Section StoreProperties.

Local Open Scope string_scope.

Lemma prop_setProp_same (k : string) (v : json) (o : obj) :
  prop k (setProp k v o) = Some v.
Proof.
  induction o as [| [k' v'] o IH]; cbn [setProp prop].
  - rewrite String.eqb_refl. reflexivity.
  - destruct (String.eqb k' k) eqn:E; cbn [prop].
    + rewrite String.eqb_refl. reflexivity.
    + rewrite E. exact IH.
Qed.

Lemma prop_setProp_other (k k' : string) (v : json) (o : obj) :
  k' <> k -> prop k' (setProp k v o) = prop k' o.
Proof.
  intros N. induction o as [| [k0 v0] o IH]; cbn [setProp prop].
  - destruct (String.eqb_spec k k'); [congruence | reflexivity].
  - destruct (String.eqb_spec k0 k) as [-> | Nk]; cbn [prop].
    + destruct (String.eqb_spec k k'); [congruence | reflexivity].
    + rewrite IH. reflexivity.
Qed.

Lemma prop_dropProp_same (k : string) (o : obj) : prop k (dropProp k o) = None.
Proof.
  induction o as [| [k0 v0] o IH]; [reflexivity |].
  unfold dropProp; cbn [filter fst].
  destruct (String.eqb k0 k) eqn:E; cbn [negb]; [exact IH |].
  cbn [prop]. rewrite E. exact IH.
Qed.

Lemma prop_dropProp_other (k k' : string) (o : obj) :
  k' <> k -> prop k' (dropProp k o) = prop k' o.
Proof.
  intros N. induction o as [| [k0 v0] o IH]; [reflexivity |].
  unfold dropProp; cbn [filter fst prop].
  destruct (String.eqb_spec k0 k) as [-> | Nk]; cbn [negb prop].
  - destruct (String.eqb_spec k k'); [congruence | exact IH].
  - fold (dropProp k o). rewrite IH. reflexivity.
Qed.

Lemma prop_assign_same (k : string) (v : option json) (o : obj) :
  prop k (assign k v o) = v.
Proof.
  destruct v; cbn [assign]; [apply prop_setProp_same | apply prop_dropProp_same].
Qed.

Lemma prop_assign_other (k k' : string) (v : option json) (o : obj) :
  k' <> k -> prop k' (assign k v o) = prop k' o.
Proof.
  intros N. destruct v; cbn [assign];
    [apply prop_setProp_other | apply prop_dropProp_other]; exact N.
Qed.

Lemma find_replaceFirst (e : option json) (u u' : obj) (users : list obj) :
  findUserJson users e = Some u ->
  prop "email" u' = prop "email" u ->
  findUserJson (replaceFirst e u' users) e = Some u'.
Proof.
  unfold findUserJson. intros Hf He.
  induction users as [| x users IH]; [discriminate |].
  cbn [find replaceFirst] in *.
  destruct (strictEq (prop "email" x) e) eqn:E.
  - injection Hf as ->. cbn [find]. rewrite He, E. reflexivity.
  - cbn [find]. rewrite E. apply IH, Hf.
Qed.

Lemma find_split (e : option json) (u : obj) (users : list obj) (u' : obj) :
  findUserJson users e = Some u ->
  exists pre post,
    users = (pre ++ u :: post)%list
    /\ replaceFirst e u' users = (pre ++ u' :: post)%list
    /\ strictEq (prop "email" u) e = true
    /\ Forall (fun x => strictEq (prop "email" x) e = false) pre.
Proof.
  unfold findUserJson. induction users as [| x users IH]; [discriminate |].
  cbn [find replaceFirst].
  destruct (strictEq (prop "email" x) e) eqn:E.
  - intros H. injection H as ->. exists [], users. repeat split; auto.
  - intros H. destruct (IH H) as (pre & post & -> & E2 & Hm & Hp).
    exists (x :: pre), post. rewrite E2. repeat split; auto.
Qed.

Lemma loadUsersJson_again (f : usersFile) :
  loadUsersJson (fst (loadUsersJson f)) = loadUsersJson f.
Proof. destruct f; reflexivity. Qed.

Lemma objOrEmpty_props (v : option json) (o : obj) :
  objOrEmpty v = Some o -> propsOfOpt v = o.
Proof.
  destruct v as [[| x | q | s | l | p] |]; cbn;
    repeat match goal with
    | |- context [if ?t then _ else _] => destruct t
    end; intros H; try discriminate; injection H as <-; reflexivity.
Qed.





Lemma runWrite_shape (h : settingsWrite) (reqEmail : option json) (body : obj)
    (f f' : usersFile) (rep : reply) :
  runWrite h reqEmail body f = Some (f', rep) ->
  (exists code rb, rep = Reply code rb /\ code <> 200
     /\ (f' = f \/ f' = fst (loadUsersJson f)))
  \/ (exists rb user s2,
        rep = Reply 200 rb
        /\ findUserJson (snd (loadUsersJson f)) reqEmail = Some user
        /\ f' = Users (replaceFirst reqEmail
                         (setProp "settings" (JObj s2) user)
                         (snd (loadUsersJson f)))).
Proof.
  destruct h; cbn [runWrite];
    unfold postSettings, postTimers, postSaveAutoDaylight,
      postSaveAutoDaylightLegacy.
  - destruct (loadUsersJson f) as [f1 users].
    destruct (findUserJson users reqEmail) as [user |] eqn:Ef.
    + destruct (spreadOf (prop "settings" user)); [| discriminate].
      cbn [bind]. intros H. injection H as <- <-. right. eauto 10.
    + intros H. injection H as <- <-. left. eexists _, _.
      split; [reflexivity |]. split; [discriminate | auto].
  - destruct (loadUsersJson f) as [f1 users].
    destruct (findUserJson users reqEmail) as [user |] eqn:Ef.
    + destruct (objOrEmpty (prop "settings" user)); [| discriminate].
      cbn [bind].
      destruct (objOrEmpty _); [| discriminate].
      cbn [bind]. intros H. injection H as <- <-. right. eauto 10.
    + intros H. injection H as <- <-. left. eexists _, _.
      split; [reflexivity |]. split; [discriminate | auto].
  - destruct (prop "autoDaylight" body) as [[| a | q | s | l | p] |];
      try (intros H; injection H as <- <-; left; eexists _, _;
           split; [reflexivity |]; split; [discriminate | auto]).
    destruct (loadUsersJson f) as [f1 users].
    destruct (findUserJson users reqEmail) as [user |] eqn:Ef.
    + destruct (objOrEmpty (prop "settings" user)) as [s0 |]; [| discriminate].
      cbn [bind].
      destruct (if a then _ else _) as [sd |]; [| discriminate].
      cbn [bind]. intros H. injection H as <- <-. right. eauto 10.
    + intros H. injection H as <- <-. left. eexists _, _.
      split; [reflexivity |]. split; [discriminate | auto].
  - destruct (prop "autoDaylight" body) as [[| a | q | s | l | p] |];
      try (intros H; injection H as <- <-; left; eexists _, _;
           split; [reflexivity |]; split; [discriminate | auto]).
    destruct (loadUsersJson f) as [f1 users].
    destruct (findUserJson users reqEmail) as [user |] eqn:Ef.
    + destruct (objOrEmpty (prop "settings" user)) as [s0 |]; [| discriminate].
      cbn [bind]. intros H. injection H as <- <-. right. eauto 10.
    + intros H. injection H as <- <-. left. eexists _, _.
      split; [reflexivity |]. split; [discriminate | auto].
Qed.

(** X17.  A settings write that is refused (a body that is not
    acceptable, or an unknown user) leaves the list of users as it
    was. *)
Theorem refused_write_keeps_users (h : settingsWrite) (reqEmail : option json)
    (body : obj) (f f' : usersFile) (code : Z) (rb : json) :
  runWrite h reqEmail body f = Some (f', Reply code rb) ->
  code <> 200 ->
  snd (loadUsersJson f') = snd (loadUsersJson f).
Proof.
  intros H Hc. destruct (runWrite_shape _ _ _ _ _ _ H)
    as [(c & b0 & E & _ & [-> | ->]) | (b0 & u & s2 & E & _)].
  - reflexivity.
  - rewrite loadUsersJson_again. reflexivity.
  - injection E as E _. contradiction.
Qed.


Lemma refused_write_keeps_users_witness :
  exists f',
    runWrite WriteAutoDaylight reqEmailDim [("autoDaylight", JStr "yes")]
      (Users [storedUser true])
    = Some (f', Reply 400 (JObj [("success", JBool false)]))
    /\ snd (loadUsersJson f') = [storedUser true].
Proof.
  eexists. split; [reflexivity |].
  apply (refused_write_keeps_users WriteAutoDaylight reqEmailDim
           [("autoDaylight", JStr "yes")] (Users [storedUser true]) _ 400
           (JObj [("success", JBool false)]) eq_refl).
  discriminate.
Defined.

(** X18.  A successful settings write changes one user, the first whose
    email is the requester's, and of that user only the [settings] key:
    the other users, their order, and that user's email and password stay
    as they were. *)
Theorem write_touches_one_user (h : settingsWrite) (reqEmail : option json)
    (body : obj) (f f' : usersFile) (rb : json) :
  runWrite h reqEmail body f = Some (f', Reply 200 rb) ->
  exists pre u post u',
    snd (loadUsersJson f) = (pre ++ u :: post)%list
    /\ f' = Users (pre ++ u' :: post)%list
    /\ strictEq (prop "email" u) reqEmail = true
    /\ Forall (fun x => strictEq (prop "email" x) reqEmail = false) pre
    /\ (forall k, k <> "settings" -> prop k u' = prop k u).
Proof.
  intros H. destruct (runWrite_shape _ _ _ _ _ _ H)
    as [(c & b0 & E & Hc & _) | (b0 & u & s2 & _ & Hf & ->)].
  - injection E as <- _. contradiction.
  - destruct (find_split _ _ _ (setProp "settings" (JObj s2) u) Hf)
      as (pre & post & E1 & E2 & Hm & Hp).
    exists pre, u, post, (setProp "settings" (JObj s2) u).
    rewrite E2. repeat split; try assumption.
    intros k Hk. apply prop_setProp_other. exact Hk.
Qed.


Lemma write_touches_one_user_witness :
  exists pre u post u',
    (pre ++ u :: post)%list = [storedUser false]
    /\ prop "password" u' = prop "password" u.
Proof.
  destruct (write_touches_one_user WriteTimers reqEmailDim timersBody
              (Users [storedUser false]) _ _ eq_refl)
    as (pre & u & post & u' & E & _ & _ & _ & Hk).
  exists pre, u, post, u'. split; [symmetry; exact E |].
  apply Hk. discriminate.
Defined.

Lemma postSaveAutoDaylight_spec (reqEmail : option json) (body : obj)
    (f f' : usersFile) (rb : json) :
  postSaveAutoDaylight reqEmail body f = Some (f', Reply 200 rb) ->
  exists a u u',
    prop "autoDaylight" body = Some (JBool a)
    /\ findUserJson (snd (loadUsersJson f)) reqEmail = Some u
    /\ findUserJson (snd (loadUsersJson f')) reqEmail = Some u'
    /\ prop "autoDaylight" (storedSettings u') = Some (JBool a)
    /\ rb = autoDaylightReply true
              (Some (a && isTrue (prop "lightTimerEnabled" (storedTimers u))))
    /\ (a = true ->
        isTrue (prop "lightTimerEnabled" (storedTimers u')) = false
        /\ exists t, prop "timers" (storedSettings u') = Some (JObj t))
    /\ (a = false ->
        prop "timers" (storedSettings u') = prop "timers" (storedSettings u)).
Proof.
  unfold postSaveAutoDaylight.
  destruct (prop "autoDaylight" body) as [[| a | q | s | l | p] |];
    try (intros H; discriminate).
  destruct (loadUsersJson f) as [f1 users] eqn:El.
  destruct (findUserJson users reqEmail) as [user |] eqn:Ef;
    [| intros H; discriminate].
  destruct (objOrEmpty (prop "settings" user)) as [s0 |] eqn:Es;
    [| intros H; discriminate].
  cbn [bind]. pose proof (objOrEmpty_props _ _ Es) as Ps.
  assert (Hfind : forall s2,
            findUserJson
              (replaceFirst reqEmail (setProp "settings" (JObj s2) user) users)
              reqEmail = Some (setProp "settings" (JObj s2) user)).
  { intros s2. apply (find_replaceFirst _ user); [exact Ef |].
    apply prop_setProp_other. discriminate. }
  assert (Hst : forall s2,
            storedSettings (setProp "settings" (JObj s2) user) = s2).
  { intros s2. unfold storedSettings. rewrite prop_setProp_same. reflexivity. }
  destruct a.
  - destruct (objOrEmpty (prop "timers" s0)) as [t0 |] eqn:Et;
      [| intros H; discriminate].
    cbn [bind]. pose proof (objOrEmpty_props _ _ Et) as Pt.
    assert (Hold : storedTimers user = t0)
      by (unfold storedTimers, storedSettings; rewrite Ps; exact Pt).
    destruct (strictEq (prop "lightTimerEnabled" t0) (Some (JBool true))) eqn:Ee;
      cbn [bind fst snd]; intros H; injection H as <- <-;
      eexists true, user, _; cbn [snd loadUsersJson saveUsers];
      (split; [reflexivity |]); (split; [exact Ef |]);
      (split; [apply Hfind |]); rewrite Hst, Hold;
      (split; [apply prop_setProp_same |]);
      (split; [unfold isTrue; rewrite Ee; reflexivity |]);
      (split; [| discriminate]); intros _;
      unfold storedTimers; rewrite Hst;
      rewrite prop_setProp_other by discriminate;
      rewrite prop_setProp_same; cbn [propsOfOpt];
      (split; [| eexists; reflexivity]).
    + rewrite prop_setProp_same. reflexivity.
    + exact Ee.
  - cbn [bind fst snd]. intros H. injection H as <- <-.
    eexists false, user, _; cbn [snd loadUsersJson saveUsers].
    split; [reflexivity |]. split; [exact Ef |].
    split; [apply Hfind |]. rewrite Hst.
    split; [apply prop_setProp_same |].
    split; [reflexivity |]. split; [discriminate |]. intros _.
    rewrite prop_setProp_other by discriminate.
    unfold storedSettings. rewrite Ps. reflexivity.
Qed.

(** X19.  A successful [POST /api/save-auto-daylight] stores the flag.
    Switching the mode on leaves the stored [lightTimerEnabled] other
    than [true], and the answer's [lightTimerDisabledByAutoDaylight] is
    true exactly when it was [true] before; switching the mode off leaves
    the timers as they were and answers false. *)
Theorem auto_daylight_coupling (reqEmail : option json) (body : obj)
    (f f' : usersFile) (rb : json) :
  postSaveAutoDaylight reqEmail body f = Some (f', Reply 200 rb) ->
  exists a u u',
    prop "autoDaylight" body = Some (JBool a)
    /\ findUserJson (snd (loadUsersJson f)) reqEmail = Some u
    /\ findUserJson (snd (loadUsersJson f')) reqEmail = Some u'
    /\ prop "autoDaylight" (storedSettings u') = Some (JBool a)
    /\ rb = autoDaylightReply true
              (Some (a && isTrue (prop "lightTimerEnabled" (storedTimers u))))
    /\ (a = true ->
        isTrue (prop "lightTimerEnabled" (storedTimers u')) = false)
    /\ (a = false ->
        prop "timers" (storedSettings u') = prop "timers" (storedSettings u)).
Proof.
  intros H.
  destruct (postSaveAutoDaylight_spec _ _ _ _ _ H)
    as (a & u & u' & H1 & H2 & H3 & H4 & H5 & H6 & H7).
  exists a, u, u'. repeat (split; [assumption |]).
  split; [| exact H7]. intros Ha. apply (H6 Ha).
Qed.


Lemma auto_daylight_coupling_witness :
  exists f',
    postSaveAutoDaylight reqEmailDim daylightOn (Users [storedUser true])
    = Some (f', Reply 200
                  (JObj [("success", JBool true);
                         ("lightTimerDisabledByAutoDaylight", JBool true)]))
    /\ exists u',
         findUserJson (snd (loadUsersJson f')) reqEmailDim = Some u'
         /\ prop "lightTimerEnabled" (storedTimers u') = Some (JBool false).
Proof.
  eexists. split; [reflexivity |].
  destruct (auto_daylight_coupling reqEmailDim daylightOn
              (Users [storedUser true]) _ _ eq_refl)
    as (a & u & u' & _ & _ & Hf & _ & _ & _ & _).
  exists u'. split; [exact Hf |].
  cbn in Hf. injection Hf as <-. reflexivity.
Defined.

Lemma decodeUser_email (u : obj) (tu : User) :
  decodeUser u = Some tu -> prop "email" u = Some (JStr (email tu)).
Proof.
  unfold decodeUser.
  destruct (prop "email" u) as [[| x | q | s | l | p] |]; try discriminate.
  destruct (decodeSettings (prop "settings" u)); [| discriminate].
  cbn [bind]. intros H. injection H as <-. reflexivity.
Qed.

Lemma decodeUsers_find (l : list obj) (us : list User) (e : string) :
  decodeUsers l = Some us ->
  match findUserJson l (Some (JStr e)) with
  | Some u => exists tu, decodeUser u = Some tu /\ findUser us e = Some tu
  | None => findUser us e = None
  end.
Proof.
  unfold decodeUsers, findUserJson, findUser. revert us.
  induction l as [| x l IH]; intros us; cbn [decodeAll find].
  - intros H. injection H as <-. reflexivity.
  - destruct (decodeUser x) as [tx |] eqn:Ex; [| discriminate]. cbn [bind].
    destruct (decodeAll decodeUser l) as [ts |]; [| discriminate].
    cbn [bind]. intros H. injection H as <-. cbn [find].
    rewrite (decodeUser_email _ _ Ex). cbn [strictEq].
    destruct (String.eqb (email tx) e); [eauto |].
    apply IH. reflexivity.
Qed.

Lemma truthy_decodeFlag (v : option json) (en : field bool) :
  decodeFlag v = Some en -> truthy en = truthyJson v.
Proof.
  destruct v as [[| x | q | s | l | p] |]; intros H; injection H as <-;
    reflexivity.
Qed.

(** Switching the daylight mode on leaves an object under [timers]; its
    [lightTimerEnabled] is [false] when it was [true] and is what it was
    otherwise. *)
Lemma postSaveAutoDaylight_flag (reqEmail : option json) (body : obj)
    (f f' : usersFile) (rb : json) (u : obj) :
  prop "autoDaylight" body = Some (JBool true) ->
  findUserJson (snd (loadUsersJson f)) reqEmail = Some u ->
  postSaveAutoDaylight reqEmail body f = Some (f', Reply 200 rb) ->
  exists u' t,
    findUserJson (snd (loadUsersJson f')) reqEmail = Some u'
    /\ prop "timers" (storedSettings u') = Some (JObj t)
    /\ prop "lightTimerEnabled" t
       = (if isTrue (prop "lightTimerEnabled" (storedTimers u))
          then Some (JBool false)
          else prop "lightTimerEnabled" (storedTimers u)).
Proof.
  unfold postSaveAutoDaylight. intros Hb Hu. rewrite Hb.
  destruct (loadUsersJson f) as [f1 users] eqn:El. cbn [snd] in Hu.
  rewrite Hu.
  destruct (objOrEmpty (prop "settings" u)) as [s0 |] eqn:Es;
    [| intros H; discriminate].
  cbn [bind]. pose proof (objOrEmpty_props _ _ Es) as Ps.
  destruct (objOrEmpty (prop "timers" s0)) as [t0 |] eqn:Et;
    [| intros H; discriminate].
  cbn [bind]. pose proof (objOrEmpty_props _ _ Et) as Pt.
  assert (Hold : storedTimers u = t0)
    by (unfold storedTimers, storedSettings; rewrite Ps; exact Pt).
  rewrite Hold. unfold isTrue.
  destruct (strictEq (prop "lightTimerEnabled" t0) (Some (JBool true)));
    cbn [bind fst snd]; intros H; injection H as <- <-;
    eexists _, _; cbn [snd loadUsersJson saveUsers];
    (split; [apply (find_replaceFirst _ u); [exact Hu |];
             apply prop_setProp_other; discriminate |]);
    unfold storedSettings; rewrite prop_setProp_same; cbn [propsOfOpt];
    rewrite prop_setProp_other by discriminate;
    rewrite prop_setProp_same;
    (split; [reflexivity |]).
  - apply prop_setProp_same.
  - reflexivity.
Qed.

(** X20.  Let the daylight mode be switched on for a user whose stored
    [lightTimerEnabled] is the boolean [true] or is falsy, and let the
    file written be one the typed view of the colour handlers reads.
    Then the timer colour handler answers [{color: null}] for that user
    at every time.  (The switch tests [=== true] and the colour handler
    tests truthiness: a flag stored as 1 stays on.) *)
Theorem auto_daylight_silences_timer (e : string) (body : obj)
    (f : usersFile) (u : obj) (l' : list obj) (rb : json)
    (users' : list User) (hours minutes : Z) :
  e <> EmptyString ->
  prop "autoDaylight" body = Some (JBool true) ->
  findUserJson (snd (loadUsersJson f)) (Some (JStr e)) = Some u ->
  trueOrFalsy (prop "lightTimerEnabled" (storedTimers u)) ->
  postSaveAutoDaylight (Some (JStr e)) body f = Some (Users l', Reply 200 rb) ->
  decodeUsers l' = Some users' ->
  lightTimerColor (Some e) (Some users') hours minutes = Some JsonColorNull.
Proof.
  intros He Hb Hu Hflag Hp Hd.
  destruct (postSaveAutoDaylight_flag _ _ _ _ _ _ Hb Hu Hp)
    as (u' & t & Hf & Ht & Hen).
  cbn [snd loadUsersJson] in Hf.
  pose proof (decodeUsers_find l' users' e Hd) as Hfind. rewrite Hf in Hfind.
  destruct Hfind as (tu & Hdu & Hfu).
  unfold lightTimerColor. destruct e as [| c e']; [contradiction He; reflexivity |].
  cbn [loadUsers]. rewrite Hfu.
  unfold decodeUser in Hdu.
  destruct (prop "email" u') as [[| x | q | s | l | p] |]; try discriminate.
  unfold storedSettings in Ht.
  destruct (prop "settings" u') as [[| x | q | s1 | l | o] |];
    cbn [propsOfOpt prop] in Ht; try discriminate.
  cbn [decodeSettings] in Hdu. rewrite Ht in Hdu. cbn [decodeTimers] in Hdu.
  destruct (decodeNumber (prop "brightness" o)) as [bri |]; [| discriminate].
  cbn [bind] in Hdu.
  destruct (decodeFlag (prop "lightTimerEnabled" t)) as [en |] eqn:Een;
    [| discriminate].
  cbn [bind] in Hdu.
  destruct (decodeWindows (prop "lightTimers" t)) as [ws |]; [| discriminate].
  cbn [bind] in Hdu. injection Hdu as <-.
  unfold computeTimerColor; cbn [lightTimerEnabled lightTimers].
  assert (Hoff : truthy en = false).
  { rewrite (truthy_decodeFlag _ _ Een), Hen.
    destruct Hflag as [Htrue | Hfalsy].
    - rewrite Htrue. reflexivity.
    - destruct (isTrue (prop "lightTimerEnabled" (storedTimers u)));
        [reflexivity | exact Hfalsy]. }
  rewrite Hoff. reflexivity.
Qed.

Lemma auto_daylight_silences_timer_witness :
  (exists l' users',
     postSaveAutoDaylight reqEmailDim daylightOn (Users [storedUser true])
     = Some (Users l', Reply 200
                         (JObj [("success", JBool true);
                                ("lightTimerDisabledByAutoDaylight",
                                 JBool true)]))
     /\ decodeUsers l' = Some users'
     /\ lightTimerColor (Some "dim@example.org") (Some users') 12 0
        = Some JsonColorNull)
  /\ (exists l' users',
        postSaveAutoDaylight reqEmailDim daylightOn
          (Users [storedUserFlag (JNum 1)])
        = Some (Users l', Reply 200
                            (JObj [("success", JBool true);
                                   ("lightTimerDisabledByAutoDaylight",
                                    JBool false)]))
        /\ decodeUsers l' = Some users'
        /\ lightTimerColor (Some "dim@example.org") (Some users') 12 0
           = Some (JsonRgb (mkRgb 128 77 0))).
Proof.
  split.
  - eexists _, _. split; [reflexivity |]. split; [reflexivity |].
    eapply (auto_daylight_silences_timer "dim@example.org" daylightOn
              (Users [storedUser true]) (storedUser true));
      [discriminate | reflexivity | reflexivity | left; reflexivity
      | reflexivity | reflexivity].
  - eexists _, _. split; [reflexivity |]. split; reflexivity.
Defined.

Lemma postTimers_spec (reqEmail : option json) (body : obj)
    (f f' : usersFile) (rb : json) :
  postTimers reqEmail body f = Some (f', Reply 200 rb) ->
  exists u u' t ad,
    findUserJson (snd (loadUsersJson f)) reqEmail = Some u
    /\ findUserJson (snd (loadUsersJson f')) reqEmail = Some u'
    /\ prop "settings" u' <> None /\ prop "settings" u' <> Some JNull
    /\ prop "timers" (storedSettings u') = Some (JObj t)
    /\ prop "autoDaylight" (storedSettings u') = Some ad
    /\ (forall k, In k timerKeys -> prop k t = prop k body)
    /\ (forall k, ~ In k timerKeys -> prop k t = prop k (storedTimers u))
    /\ (forall a, prop "autoDaylight" body = Some (JBool a) -> ad = JBool a)
    /\ truthyJson (Some (JObj t)) = true.
Proof.
  unfold postTimers.
  destruct (loadUsersJson f) as [f1 users] eqn:El.
  destruct (findUserJson users reqEmail) as [user |] eqn:Ef;
    [| intros H; discriminate].
  destruct (objOrEmpty (prop "settings" user)) as [s0 |] eqn:Es;
    [| intros H; discriminate].
  cbn [bind]. rewrite prop_setProp_other by discriminate.
  destruct (objOrEmpty (prop "timers" s0)) as [t0 |] eqn:Et;
    [| intros H; discriminate].
  cbn [bind]. intros H. injection H as <- _.
  pose proof (objOrEmpty_props _ _ Es) as Ps.
  pose proof (objOrEmpty_props _ _ Et) as Pt.
  eexists user, _, _, _. cbn [snd loadUsersJson saveUsers].
  split; [exact Ef |].
  split; [apply (find_replaceFirst _ user);
          [exact Ef | apply prop_setProp_other; discriminate] |].
  unfold storedSettings. rewrite prop_setProp_same. cbn [propsOfOpt].
  split; [discriminate |]. split; [discriminate |].
  split; [apply prop_setProp_same |].
  split; [rewrite prop_setProp_other by discriminate; apply prop_setProp_same |].
  split; [| split; [| split; [| reflexivity]]].
  - intros k Hk. cbn [timerKeys In] in Hk.
    destruct Hk as [<- | [<- | [<- | [<- | []]]]];
      repeat (first [ apply prop_assign_same
                    | rewrite prop_assign_other by discriminate ]).
  - intros k Hk. cbn [timerKeys In] in Hk.
    rewrite !prop_assign_other by (intros ->; apply Hk; auto 10).
    unfold storedTimers, storedSettings. rewrite Ps, Pt. reflexivity.
  - intros a Ha. rewrite Ha. reflexivity.
Qed.




(** X22.  [POST /api/timers] does not apply the rule of the daylight
    switch: a request that sets both [autoDaylight] and
    [lightTimerEnabled] to true stores both as true. *)
Theorem timers_write_does_not_couple (reqEmail : option json) (body : obj)
    (f f' : usersFile) (rb : json) :
  prop "autoDaylight" body = Some (JBool true) ->
  prop "lightTimerEnabled" body = Some (JBool true) ->
  postTimers reqEmail body f = Some (f', Reply 200 rb) ->
  exists u',
    findUserJson (snd (loadUsersJson f')) reqEmail = Some u'
    /\ prop "autoDaylight" (storedSettings u') = Some (JBool true)
    /\ prop "lightTimerEnabled" (storedTimers u') = Some (JBool true).
Proof.
  intros Ha Hl H.
  destruct (postTimers_spec _ _ _ _ _ H)
    as (u & u' & t & ad & _ & Hf & _ & _ & Ht & Had & Hk & _ & Hb & _).
  exists u'. split; [exact Hf |].
  rewrite Had, (Hb true Ha). split; [reflexivity |].
  unfold storedTimers. rewrite Ht. cbn [propsOfOpt].
  rewrite (Hk "lightTimerEnabled") by (cbn; auto). exact Hl.
Qed.


Lemma timers_write_does_not_couple_witness :
  exists f' u',
    findUserJson (snd (loadUsersJson f')) reqEmailDim = Some u'
    /\ prop "autoDaylight" (storedSettings u') = Some (JBool true)
    /\ prop "lightTimerEnabled" (storedTimers u') = Some (JBool true).
Proof.
  destruct (timers_write_does_not_couple reqEmailDim timersBody
              (Users [storedUser false]) _ _ eq_refl eq_refl eq_refl)
    as (u' & H).
  eexists _, u'. exact H.
Defined.

(** X23.  [POST /api/get-auto-daylight] takes no token: for an email in
    the body that belongs to a user it sends exactly what
    [GET /settings] sends to that user after the token check. *)
Theorem settings_readable_without_token (body : obj) (f : usersFile) :
  truthyJson (prop "email" body) = true ->
  fst (postGetAutoDaylight body f) = fst (getSettings (prop "email" body) f)
  /\ (findUserJson (snd (loadUsersJson f)) (prop "email" body) <> None ->
      postGetAutoDaylight body f = getSettings (prop "email" body) f).
Proof.
  intros He. unfold postGetAutoDaylight, getSettings. rewrite He.
  destruct (loadUsersJson f) as [f1 users]. cbn [snd].
  destruct (findUserJson users (prop "email" body)); cbn [fst].
  - split; reflexivity.
  - split; [reflexivity |]. intros N. contradiction N. reflexivity.
Qed.


Lemma settings_readable_without_token_witness :
  postGetAutoDaylight [("email", JStr "dim@example.org")]
    (Users [storedUser true])
  = getSettings reqEmailDim (Users [storedUser true]).
Proof.
  apply (proj2 (settings_readable_without_token
                  [("email", JStr "dim@example.org")]
                  (Users [storedUser true]) eq_refl)).
  discriminate.
Defined.

(** X24.  The earlier [POST /api/save-auto-daylight] stores the flag and
    nothing else: every other key of the user's settings, the timers
    among them, stays as it was, and the answer carries no
    [lightTimerDisabledByAutoDaylight]. *)
Theorem legacy_auto_daylight_keeps_timers (reqEmail : option json) (body : obj)
    (f f' : usersFile) (rb : json) :
  postSaveAutoDaylightLegacy reqEmail body f = Some (f', Reply 200 rb) ->
  exists a u u',
    prop "autoDaylight" body = Some (JBool a)
    /\ findUserJson (snd (loadUsersJson f)) reqEmail = Some u
    /\ findUserJson (snd (loadUsersJson f')) reqEmail = Some u'
    /\ prop "autoDaylight" (storedSettings u') = Some (JBool a)
    /\ (forall k, k <> "autoDaylight" ->
          prop k (storedSettings u') = prop k (storedSettings u))
    /\ rb = JObj [("success", JBool true)].
Proof.
  unfold postSaveAutoDaylightLegacy.
  destruct (prop "autoDaylight" body) as [[| a | q | s | l | p] |];
    try (intros H; discriminate).
  destruct (loadUsersJson f) as [f1 users] eqn:El.
  destruct (findUserJson users reqEmail) as [user |] eqn:Ef;
    [| intros H; discriminate].
  destruct (objOrEmpty (prop "settings" user)) as [s0 |] eqn:Es;
    [| intros H; discriminate].
  cbn [bind]. intros H. injection H as <- <-.
  pose proof (objOrEmpty_props _ _ Es) as Ps.
  eexists a, user, _. cbn [snd loadUsersJson saveUsers].
  split; [reflexivity |]. split; [exact Ef |].
  split; [apply (find_replaceFirst _ user);
          [exact Ef | apply prop_setProp_other; discriminate] |].
  unfold storedSettings. rewrite prop_setProp_same, Ps. cbn [propsOfOpt].
  split; [apply prop_setProp_same |]. split; [| reflexivity].
  intros k Hk. apply prop_setProp_other. exact Hk.
Qed.


Lemma legacy_auto_daylight_keeps_timers_witness :
  exists f' u',
    findUserJson (snd (loadUsersJson f')) reqEmailDim = Some u'
    /\ prop "autoDaylight" (storedSettings u') = Some (JBool true)
    /\ prop "lightTimerEnabled" (storedTimers u') = Some (JBool true).
Proof.
  destruct (legacy_auto_daylight_keeps_timers reqEmailDim daylightOn
              (Users [storedUser true]) _ _ eq_refl)
    as (a & u & u' & Ha & Hu & Hu' & Had & Hk & _).
  eexists _, u'. split; [exact Hu' |].
  injection Ha as <-. split; [exact Had |].
  unfold storedTimers. rewrite (Hk "timers") by discriminate.
  cbn in Hu. injection Hu as <-. reflexivity.
Defined.


(** ** The handlers on the disk *)

Lemma writeUsersFile_same (dir : string) (f : usersFile) (d : disk) :
  writeUsersFile dir f d dir = f.
Proof. unfold writeUsersFile. rewrite String.eqb_refl. reflexivity. Qed.

Lemma writeUsersFile_other (dir dir' : string) (f : usersFile) (d : disk) :
  dir' <> dir -> writeUsersFile dir f d dir' = d dir'.
Proof.
  intros H. unfold writeUsersFile.
  destruct (String.eqb_spec dir' dir); [contradiction | reflexivity].
Qed.

Lemma onDisk_inv (h : usersFile -> option (usersFile * reply)) (p : Process)
    (d d' : disk) (rep : reply) :
  onDisk h p d = Some (d', rep) ->
  exists f', h (d (cwd p)) = Some (f', rep)
             /\ d' = writeUsersFile (cwd p) f' d.
Proof.
  unfold onDisk. destruct (h (d (cwd p))) as [[f' rep'] |]; [| discriminate].
  cbn [bind fst snd]. intros H. injection H as <- <-.
  exists f'. split; reflexivity.
Qed.



Section AccountProperties.

Variable hashSync : string -> string -> string.
Variable compareSync : string -> string -> bool.
Variable jwt_sign : Z -> option json -> option json -> string.
Variable jwt_verify : Z -> string -> option (option json * option json).


Lemma newUser_props (body : obj) (hash : string) :
  let user :=
    literal [("firstName", prop "firstName" body);
             ("lastName", prop "lastName" body);
             ("email", prop "email" body);
             ("password", Some (JStr hash));
             ("settings", Some (JObj []))] in
  prop "email" user = prop "email" body
  /\ prop "password" user = Some (JStr hash)
  /\ prop "settings" user = Some (JObj [])
  /\ prop "firstName" user = prop "firstName" body.
Proof.
  cbv zeta. unfold literal; cbn [fold_left fst snd].
  repeat split;
    repeat (first [ apply prop_assign_same
                  | rewrite prop_assign_other by discriminate ]).
Qed.


Lemma find_app_last (e : option json) (l : list obj) (u : obj) :
  existsb (fun x => strictEq (prop "email" x) e) l = false ->
  strictEq (prop "email" u) e = true ->
  findUserJson (l ++ [u]) e = Some u.
Proof.
  unfold findUserJson. intros Hn Hu. induction l as [| x l IH]; cbn [app find].
  - rewrite Hu. reflexivity.
  - cbn [existsb] in Hn. apply orb_false_iff in Hn. destruct Hn as [Hx Hl].
    rewrite Hx. apply IH, Hl.
Qed.

(** X27.  If comparing a password with its own hash succeeds, a user who
    has just registered with a non-empty string email and password can
    log in with them and receives a token signed for that email and
    first name. *)
Theorem register_then_login (salt em pw : string) (now : Z)
    (body login : obj) (f f' : usersFile) (rb : json) :
  (forall s p, compareSync p (hashSync s p) = true) ->
  em <> EmptyString -> pw <> EmptyString ->
  prop "email" body = Some (JStr em) ->
  prop "password" body = Some (JStr pw) ->
  prop "email" login = Some (JStr em) ->
  prop "password" login = Some (JStr pw) ->
  postRegister hashSync salt body f = Some (f', Reply 201 rb) ->
  postLogin compareSync jwt_sign now login f'
  = Some (f', Reply 200
                (JObj [("token",
                        JStr (jwt_sign now (Some (JStr em))
                                (prop "firstName" body)))])).
Proof.
  intros Hc Hem Hpw Be Bp Le Lp. unfold postRegister.
  destruct (loadUsersJson f) as [f1 users].
  destruct (existsb _ users) eqn:Ex; [intros H; discriminate |].
  rewrite Bp. intros H. injection H as <- _.
  destruct (newUser_props body (hashSync salt pw)) as (Pe & Pp & _ & Pf).
  unfold postLogin. rewrite Le, Lp. cbn [truthyJson].
  destruct (String.eqb_spec em ""); [contradiction |].
  destruct (String.eqb_spec pw ""); [contradiction |].
  cbn [negb orb loadUsersJson saveUsers].
  rewrite Be in Ex.
  rewrite (find_app_last _ users _ Ex)
    by (rewrite Pe, Be; cbn; apply String.eqb_refl).
  rewrite Pp, Hc, Pe, Pf, Be. reflexivity.
Qed.

(** X28.  A failed login answers the same for an unknown email and for a
    known email with a wrong password: 401 "Invalid credentials". *)
Theorem failed_login_is_uniform (now : Z) (body : obj) (f g : usersFile)
    (u : obj) (pw hash : string) :
  truthyJson (prop "email" body) = true ->
  pw <> EmptyString ->
  prop "password" body = Some (JStr pw) ->
  findUserJson (snd (loadUsersJson f)) (prop "email" body) = None ->
  findUserJson (snd (loadUsersJson g)) (prop "email" body) = Some u ->
  prop "password" u = Some (JStr hash) ->
  compareSync pw hash = false ->
  option_map snd (postLogin compareSync jwt_sign now body f)
  = Some (Reply 401 (message "Invalid credentials"))
  /\ option_map snd (postLogin compareSync jwt_sign now body g)
     = Some (Reply 401 (message "Invalid credentials")).
Proof.
  intros He Hpw Bp Ff Fg Up Hc. unfold postLogin. rewrite He, Bp.
  cbn [truthyJson]. destruct (String.eqb_spec pw ""); [contradiction |].
  cbn [negb orb].
  destruct (loadUsersJson f) as [f1 uf]. destruct (loadUsersJson g) as [g1 ug].
  cbn [snd] in Ff, Fg. rewrite Ff, Fg, Up, Hc. split; reflexivity.
Qed.

Lemma split_lacks (sep : ascii) (s : string) :
  lacks sep s = true -> split sep s = [s].
Proof.
  induction s as [| c s IH]; [reflexivity |]. cbn [lacks split].
  intros H. apply andb_true_iff in H. destruct H as [Hc Hs].
  apply negb_true_iff in Hc. rewrite Hc, (IH Hs). reflexivity.
Qed.

Lemma split_word (sep : ascii) (w rest : string) :
  lacks sep w = true ->
  split sep (w ++ String sep rest) = w :: split sep rest.
Proof.
  induction w as [| c w IH]; cbn [lacks append].
  - intros _. apply split_sep.
  - intros H. apply andb_true_iff in H. destruct H as [Hc Hw].
    apply negb_true_iff in Hc. rewrite (split_other _ _ _ Hc), (IH Hw).
    reflexivity.
Qed.

(** X29.  The token check takes the second space-separated word of the
    [Authorization] header as the token whatever the first word is; a
    header without a space, or no header, is answered 401. *)
Theorem auth_reads_second_word (now : Z) (scheme token : string) :
  lacks " " scheme = true -> lacks " " token = true ->
  token <> EmptyString ->
  authMiddleware jwt_verify now (Some (scheme ++ String " " token))
  = match jwt_verify now token with
    | Some decoded => inr decoded
    | None => inl (Reply 403 (message "Invalid or expired token"))
    end
  /\ authMiddleware jwt_verify now (Some scheme)
     = inl (Reply 401 (message "Missing token"))
  /\ authMiddleware jwt_verify now None
     = inl (Reply 401 (message "Missing token")).
Proof.
  intros Hs Ht Hn. unfold authMiddleware. split; [| split; [| reflexivity]].
  - rewrite (split_word _ _ _ Hs), (split_lacks _ _ Ht). cbn [nth_error].
    destruct (scheme ++ String " " token) eqn:E.
    + destruct scheme; discriminate.
    + destruct token; [contradiction Hn; reflexivity | reflexivity].
  - rewrite (split_lacks _ _ Hs). destruct scheme; reflexivity.
Qed.


End AccountProperties.


Lemma register_then_login_witness :
  exists f',
    postLogin plainCompare fixedSign 0 registerBody f'
    = Some (f', Reply 200 (JObj [("token", JStr "token")])).
Proof.
  eexists.
  apply (register_then_login plainHash plainCompare fixedSign
           "salt" "new@example.org" "pw" 0 registerBody registerBody
           (Users [storedUser true]) _ (message "Registration successful")
           (fun s p => String.eqb_refl p));
    first [discriminate | reflexivity].
Defined.

Lemma failed_login_is_uniform_witness :
  option_map snd (postLogin plainCompare fixedSign 0 wrongLogin (Users []))
  = option_map snd
      (postLogin plainCompare fixedSign 0 wrongLogin (Users [storedUser true])).
Proof.
  destruct (failed_login_is_uniform plainCompare fixedSign 0 wrongLogin
              (Users []) (Users [storedUser true]) (storedUser true)
              "wrong" "secret"
              eq_refl ltac:(discriminate) eq_refl eq_refl eq_refl eq_refl
              eq_refl) as [H1 H2].
  rewrite H1, H2. reflexivity.
Defined.

Lemma auth_reads_second_word_witness :
  authMiddleware fixedVerify 0 (Some "Basic token")
  = inr (Some (JStr "dim@example.org"), Some (JStr "Dim"))
  /\ authMiddleware fixedVerify 0 (Some "Bearer")
     = inl (Reply 401 (message "Missing token")).
Proof.
  destruct (auth_reads_second_word fixedVerify 0 "Basic" "token"
              eq_refl eq_refl ltac:(discriminate)) as (H1 & _ & _).
  destruct (auth_reads_second_word fixedVerify 0 "Bearer" "token"
              eq_refl eq_refl ltac:(discriminate)) as (_ & H2 & _).
  split; [exact H1 | exact H2].
Defined.

(** On one and the same file: a user who has just registered has empty
    settings, so the daylight handler computes with brightness 255 and
    the timer colour handler answers 404. *)
Lemma postRegister_fresh (hashSync : string -> string -> string)
    (Math_sin : Q -> Q) (salt em : string) (body : obj) (f : usersFile)
    (l' : list obj) (rb : json) (users' : list User) (hour minute : Z) :
  em <> EmptyString ->
  prop "email" body = Some (JStr em) ->
  postRegister hashSync salt body f = Some (Users l', Reply 201 rb) ->
  decodeUsers l' = Some users' ->
  autoLight Math_sin (Some em) (Some users') hour minute
  = JsonRgb (computeDaylightColor Math_sin (fractionalHour hour minute) 255)
  /\ lightTimerColor (Some em) (Some users') hour minute
     = Some (Status 404 "User or settings not found").
Proof.
  intros Hem Be. unfold postRegister.
  destruct (loadUsersJson f) as [f1 users].
  destruct (existsb _ users) eqn:Ex; [intros H; discriminate |].
  destruct (prop "password" body) as [[| x | q | p | l | o] |];
    try (intros H; discriminate).
  intros H Hd. injection H as <- _.
  destruct (newUser_props body (hashSync salt p)) as (Pe & _ & Ps & _).
  rewrite Be in Ex.
  pose proof (decodeUsers_find _ users' em Hd) as Hfind.
  rewrite (find_app_last _ users _ Ex) in Hfind
    by (rewrite Pe, Be; cbn; apply String.eqb_refl).
  destruct Hfind as (tu & Hu & Hfu).
  unfold decodeUser in Hu. rewrite Pe, Ps, Be in Hu. cbn in Hu.
  injection Hu as <-.
  unfold autoLight, lightTimerColor.
  destruct em as [| c e']; [contradiction Hem; reflexivity |].
  cbn [loadUsers]. rewrite Hfu. split; reflexivity.
Qed.

(** X30.  [POST /register] writes the user file of the working directory;
    the timer colour handler reads the same file and the daylight handler
    the one beside [server.js].  For a user who has just registered with
    a non-empty string email, when the file written is one the typed view
    reads: the timer colour handler answers 404; the daylight handler
    answers that user's colour at brightness 255 when the two directories
    are the same, and what it answered before the registration when they
    differ. *)
Theorem fresh_user_defaults (hashSync : string -> string -> string)
    (Math_sin : Q -> Q) (p : Process) (d d' : disk) (salt em : string)
    (body : obj) (rb : json) (users' : list User) (hour minute : Z) :
  em <> EmptyString ->
  prop "email" body = Some (JStr em) ->
  onDisk (postRegister hashSync salt body) p d = Some (d', Reply 201 rb) ->
  typedFile (d' (cwd p)) = Some users' ->
  option_map snd (lightTimerColorOnDisk p d' (Some em) hour minute)
  = Some (Status 404 "User or settings not found")
  /\ (cwd p = dirname p ->
      autoLightOnDisk Math_sin p d' (Some em) hour minute
      = Some (JsonRgb (computeDaylightColor Math_sin
                         (fractionalHour hour minute) 255)))
  /\ (cwd p <> dirname p ->
      autoLightOnDisk Math_sin p d' (Some em) hour minute
      = autoLightOnDisk Math_sin p d (Some em) hour minute).
Proof.
  intros Hem Be Hp Ht.
  destruct (onDisk_inv _ _ _ _ _ Hp) as (f' & Hh & ->).
  rewrite writeUsersFile_same in Ht.
  destruct f' as [| | l']; try discriminate. cbn [typedFile] in Ht.
  destruct (postRegister_fresh hashSync Math_sin salt em body _ l' rb users'
              hour minute Hem Be Hh Ht) as [Ha Hl].
  unfold lightTimerColorOnDisk, autoLightOnDisk.
  destruct em as [| c e']; [contradiction Hem; reflexivity |].
  split; [| split].
  - rewrite writeUsersFile_same. cbn [loadUsersJson]. rewrite Ht.
    cbn [bind]. rewrite Hl. reflexivity.
  - intros Hsame. rewrite <- Hsame, writeUsersFile_same, Ht. cbn [bind].
    rewrite Ha. reflexivity.
  - intros Hne.
    rewrite writeUsersFile_other
      by (intros E; apply Hne; symmetry; exact E).
    reflexivity.
Qed.

Lemma fresh_user_defaults_witness :
  (exists d',
     onDisk (postRegister plainHash "salt" registerBody) ownDirectory
       (diskWith "/srv/aqua" (Users [storedUser true]))
     = Some (d', Reply 201 (message "Registration successful"))
     /\ autoLightOnDisk bhaskaraSin ownDirectory d'
          (Some "new@example.org") 23 0
        = Some (JsonRgb (mkRgb 20 20 60))
     /\ option_map snd
          (lightTimerColorOnDisk ownDirectory d' (Some "new@example.org") 12 0)
        = Some (Status 404 "User or settings not found"))
  /\ (exists d',
        onDisk (postRegister plainHash "salt" registerBody) otherDirectory
          (diskWith "/home/pi" (Users [storedUser true]))
        = Some (d', Reply 201 (message "Registration successful"))
        /\ autoLightOnDisk bhaskaraSin otherDirectory d'
             (Some "new@example.org") 23 0
           = Some (Status 500 "Failed to read user data")).
Proof.
  assert (He : "new@example.org" <> EmptyString) by discriminate.
  split.
  - destruct (fresh_user_defaults plainHash bhaskaraSin ownDirectory
                (diskWith "/srv/aqua" (Users [storedUser true])) _
                "salt" "new@example.org" registerBody _ _ 23 0
                He eq_refl eq_refl eq_refl) as (_ & Hsame & _).
    destruct (fresh_user_defaults plainHash bhaskaraSin ownDirectory
                (diskWith "/srv/aqua" (Users [storedUser true])) _
                "salt" "new@example.org" registerBody _ _ 12 0
                He eq_refl eq_refl eq_refl) as (Htimer & _ & _).
    eexists. split; [| split; [exact (Hsame eq_refl) | exact Htimer]].
    reflexivity.
  - destruct (fresh_user_defaults plainHash bhaskaraSin otherDirectory
                (diskWith "/home/pi" (Users [storedUser true])) _
                "salt" "new@example.org" registerBody _ _ 23 0
                He eq_refl eq_refl eq_refl) as (_ & _ & Hother).
    assert (Hne : cwd otherDirectory <> dirname otherDirectory)
      by discriminate.
    eexists. split; [| exact (Hother Hne)]. reflexivity.
Defined.

End StoreProperties.
